(** * file_bundler: the bundle format, its byte streams, packer and unpacker

    A shallow embedding of [src/file_bundler.h].  Machine integers are
    [Z] with the 64-bit wrap-around written out, bytes are [byte],
    [std::string] is [string], [std::vector<std::uint8_t>] is [list byte].
    A raw pointer together with a size is the list of bytes it points to;
    [nullptr] is [None].

    Platform: [std::size_t] and [std::uint64_t] are 64 bits wide, integers
    are stored little-endian, [char] is signed ([CHAR_MAX] is 127) and
    [int] is 32 bits wide.

    The disk is a finite map from path to content, read when a file is
    opened for input.  What the program writes to files and which
    directories it asks for is recorded, not fed back into that map: the
    program never reads a file it has written.  Allocation failures are
    not modelled; the one exception the program can meet, the
    [filesystem_error] of [fs::file_size], is [None]. *)

From Stdlib Require Import ZArith Lia String Ascii.
From Stdlib Require Import Strings.Byte.
From stdpp Require Import base tactics option list gmap strings.

Local Open Scope Z_scope.

(** ** Outcomes of a run

    The source has two ways of not producing a value: a loop that never
    ends (the model then runs out of fuel) and undefined behaviour (a
    [memcpy] outside its buffer, a signed counter incremented past
    [INT_MAX]). *)

Inductive result (A : Type) : Type :=
| Ok (a : A)
| OutOfFuel
| Undefined.

Arguments Ok {A} a.
Arguments OutOfFuel {A}.
Arguments Undefined {A}.

#[global] Instance result_ret : MRet result := fun A a => Ok a.

#[global] Instance result_bind : MBind result := fun A B k r =>
  match r with
  | Ok a => k a
  | OutOfFuel => OutOfFuel
  | Undefined => Undefined
  end.

(** ** Machine arithmetic *)

Definition wrap64 (z : Z) : Z := z mod 2 ^ 64.

Definition INT_MAX : Z := 2147483647.

(** [CHAR_MAX] on the platforms the source targets (signed [char]). *)
Definition CHAR_MAX : byte := x7f.

Definition len {A : Type} (l : list A) : Z := Z.of_nat (length l).

(** [sizeof(std::uint64_t)] and [sizeof(_::Header_Metadata)]. *)
Definition sizeof_uint64 : Z := 8.
Definition sizeof_Header_Metadata : Z := 24.

(** ** Bytes and little-endian words *)

Definition byte_of_Z (z : Z) : byte :=
  match Byte.of_N (Z.to_N (z mod 256)) with
  | Some b => b
  | None => x00
  end.

Definition Z_of_byte (b : byte) : Z := Z.of_N (Byte.to_N b).

(** The object representation of an unsigned integer of [n] bytes. *)
Fixpoint le_bytes (n : nat) (z : Z) : list byte :=
  match n with
  | O => []
  | S k => byte_of_Z z :: le_bytes k (z / 256)
  end.

Fixpoint le_value (l : list byte) : Z :=
  match l with
  | [] => 0
  | b :: r => Z_of_byte b + 256 * le_value r
  end.

Definition uint64_bytes (z : Z) : list byte := le_bytes 8 z.

(** The bytes of a [std::string] seen through [reinterpret_cast]. *)
Definition string_bytes (s : string) : list byte := list_byte_of_string s.

(** [s.c_str()] as a C string: the characters before the first NUL. *)
Fixpoint c_str (s : string) : string :=
  match s with
  | EmptyString => EmptyString
  | String c r => if Ascii.eqb c Ascii.zero then EmptyString else String c (c_str r)
  end.

(** [memcpy(dst, src + off, n)] and [memcpy(dst + off, src, n)] on a buffer
    of known extent: outside of it the behaviour is undefined. *)
Definition memcpy_from (src : list byte) (off n : Z) : result (list byte) :=
  if (0 <=? off) && (off + n <=? len src)
  then Ok (take (Z.to_nat n) (drop (Z.to_nat off) src))
  else Undefined.

Definition memcpy_to (dst : list byte) (off : Z) (data : list byte) : result (list byte) :=
  if (0 <=? off) && (off + len data <=? len dst)
  then Ok (take (Z.to_nat off) dst ++ data ++ drop (Z.to_nat (off + len data)) dst)
  else Undefined.

(** ** The filesystem, as far as the program sees it *)

(** [std::ios_base::openmode]: the two modes the source uses. *)
Inductive openmode : Type :=
| ios_in_binary          (* std::ios::in | std::ios::binary *)
| ios_out_binary_app.    (* std::ios::out | std::ios::binary | std::ios::app *)

(** A [std::fstream].  [get_area] is the content of the file found when it
    was opened, [put_area] the bytes written through the stream so far. *)
Record fstream : Type := mk_fstream {
  is_open : bool;
  failbit : bool;
  get_area : list byte;
  gpos : Z;
  put_area : list byte
}.

Definition fstream_default : fstream :=
  {| is_open := false; failbit := false; get_area := []; gpos := 0; put_area := [] |}.

(** [file.open(name, mode)].  Opening for input fails when the file does
    not exist; opening for append creates the file. *)
Definition fstream_open (disk : gmap string (list byte)) (p_file_name : string)
    (p_openmode : openmode) : fstream :=
  match p_openmode with
  | ios_in_binary =>
      match disk !! c_str p_file_name with
      | Some data =>
          {| is_open := true; failbit := false; get_area := data; gpos := 0; put_area := [] |}
      | None =>
          {| is_open := false; failbit := true; get_area := []; gpos := 0; put_area := [] |}
      end
  | ios_out_binary_app =>
      {| is_open := true; failbit := false; get_area := []; gpos := 0; put_area := [] |}
  end.

Definition fstream_good (f : fstream) : bool := is_open f && negb (failbit f).

(** [file.read(dst, n)]: all [n] bytes, or what is left together with
    [failbit]; nothing at all on a stream that is not good. *)
Definition fstream_read (f : fstream) (dst : list byte) : fstream * list byte :=
  if fstream_good f then
    let avail := drop (Z.to_nat (gpos f)) (get_area f) in
    if len dst <=? len avail then
      ({| is_open := is_open f; failbit := false; get_area := get_area f;
          gpos := gpos f + len dst; put_area := put_area f |},
       take (length dst) avail)
    else
      ({| is_open := is_open f; failbit := true; get_area := get_area f;
          gpos := gpos f + len avail; put_area := put_area f |},
       avail ++ drop (length avail) dst)
  else
    ({| is_open := is_open f; failbit := true; get_area := get_area f;
        gpos := gpos f; put_area := put_area f |}, dst).

Definition fstream_seekg (f : fstream) (p_offset : Z) : fstream :=
  if fstream_good f then
    {| is_open := is_open f; failbit := failbit f; get_area := get_area f;
       gpos := p_offset; put_area := put_area f |}
  else f.

Definition fstream_write (f : fstream) (data : list byte) : fstream :=
  if fstream_good f then
    {| is_open := is_open f; failbit := failbit f; get_area := get_area f;
       gpos := gpos f; put_area := put_area f ++ data |}
  else
    {| is_open := is_open f; failbit := true; get_area := get_area f;
       gpos := gpos f; put_area := put_area f |}.

(** ** Streams *)

Module STREAM_OBJECT_TYPE.
Inductive t : Type := MEMORY | VECTOR | FILE.

Definition eqb (a b : t) : bool :=
  match a, b with
  | MEMORY, MEMORY | VECTOR, VECTOR | FILE, FILE => true
  | _, _ => false
  end.
End STREAM_OBJECT_TYPE.

(** [class Base_Stream].  The members [vector] and [memory] point into the
    same storage once a vector is opened, so the model keeps that storage
    once, under [memory]; [memory = None] is the null pointer. *)
Record Base_Stream : Type := mk_Base_Stream {
  stream_object_type : STREAM_OBJECT_TYPE.t;
  current_offset : Z;
  file : fstream;
  file_name : string;
  memory : option (list byte);
  memory_size : Z
}.

(** [Base_Stream() {}] with the default member initialisers. *)
Definition Base_Stream_default : Base_Stream :=
  {| stream_object_type := STREAM_OBJECT_TYPE.MEMORY; current_offset := 0;
     file := fstream_default; file_name := EmptyString;
     memory := None; memory_size := 0 |}.

(** [std::vector::resize]: truncate, or pad with zero bytes. *)
Definition vector_resize (v : list byte) (n : Z) : list byte :=
  take (Z.to_nat n) v ++ replicate (Z.to_nat n - length v)%nat x00.

(** [std::vector::data] of a vector that never had capacity is null. *)
Definition vector_data (v : list byte) : option (list byte) :=
  match v with
  | [] => None
  | _ => Some v
  end.

(** [open(std::uint8_t* p_address, std::uint64_t p_size)] *)
Definition open_memory (s : Base_Stream) (p_address : option (list byte)) (p_size : Z)
    : Base_Stream :=
  {| stream_object_type := STREAM_OBJECT_TYPE.MEMORY; current_offset := current_offset s;
     file := file s; file_name := file_name s;
     memory := p_address; memory_size := p_size |}.

(** [open(std::vector<std::uint8_t>* p_vector, std::uint64_t p_size)]: the
    [reserve] makes the data pointer non-null even for size zero. *)
Definition open_vector (s : Base_Stream) (p_vector : list byte) (p_size : Z) : Base_Stream :=
  let v := vector_resize p_vector p_size in
  {| stream_object_type := STREAM_OBJECT_TYPE.VECTOR; current_offset := current_offset s;
     file := file s; file_name := file_name s;
     memory := Some v; memory_size := len v |}.

(** [open(const std::string& p_file_name, std::ios_base::openmode p_openmode)] *)
Definition open_file (disk : gmap string (list byte)) (s : Base_Stream)
    (p_file_name : string) (p_openmode : openmode) : Base_Stream :=
  {| stream_object_type := STREAM_OBJECT_TYPE.FILE; current_offset := current_offset s;
     file := fstream_open disk p_file_name p_openmode; file_name := p_file_name;
     memory := memory s; memory_size := memory_size s |}.

Definition set_current_offset (s : Base_Stream) (o : Z) : Base_Stream :=
  {| stream_object_type := stream_object_type s; current_offset := o;
     file := file s; file_name := file_name s;
     memory := memory s; memory_size := memory_size s |}.

Definition set_file (s : Base_Stream) (f : fstream) : Base_Stream :=
  {| stream_object_type := stream_object_type s; current_offset := current_offset s;
     file := f; file_name := file_name s;
     memory := memory s; memory_size := memory_size s |}.

Definition set_memory (s : Base_Stream) (m : list byte) (n : Z) : Base_Stream :=
  {| stream_object_type := stream_object_type s; current_offset := current_offset s;
     file := file s; file_name := file_name s;
     memory := Some m; memory_size := n |}.

(** *** [class Input_Stream : public Base_Stream] *)

Module Input_Stream.

Definition t : Type := Base_Stream.

Definition from_memory (p_address : option (list byte)) (p_size : Z) : t :=
  open_memory Base_Stream_default p_address p_size.

Definition from_file (disk : gmap string (list byte)) (p_file_name : string)
    (p_openmode : openmode) : t :=
  open_file disk Base_Stream_default p_file_name p_openmode.

(** [void read(std::uint8_t* p_address, std::uint64_t p_size)]: [dst] is
    what [p_address] points to before the call, [p_size] its length; the
    result carries what it points to afterwards. *)
Definition read (s : t) (dst : list byte) : result (t * list byte) :=
  let p_size := len dst in
  match memory s with
  | Some mem =>
      if memory_size s <=? wrap64 (current_offset s + p_size)
      then Ok (s, dst)
      else
        data ← memcpy_from mem (current_offset s) p_size;
        Ok (set_current_offset s (wrap64 (current_offset s + p_size)), data)
  | None =>
      let '(f, dst') := fstream_read (file s) dst in
      Ok (set_file s f, dst')
  end.

(** [void seekg(std::uint64_t p_offset)] *)
Definition seekg (s : t) (p_offset : Z) : t :=
  match memory s with
  | Some _ =>
      if p_offset <=? memory_size s then set_current_offset s p_offset else s
  | None => set_file s (fstream_seekg (file s) p_offset)
  end.

End Input_Stream.

(** *** [class Output_Stream : public Base_Stream] *)

Module Output_Stream.

Record t : Type := mk {
  base : Base_Stream;
  total_bytes_written : Z
}.

Definition default : t := {| base := Base_Stream_default; total_bytes_written := 0 |}.

Definition from_memory (p_address : option (list byte)) (p_size : Z) : t :=
  {| base := open_memory Base_Stream_default p_address p_size; total_bytes_written := 0 |}.

Definition from_vector (p_vector : list byte) (p_size : Z) : t :=
  {| base := open_vector Base_Stream_default p_vector p_size; total_bytes_written := 0 |}.

Definition from_file (disk : gmap string (list byte)) (p_file_name : string)
    (p_openmode : openmode) : t :=
  {| base := open_file disk Base_Stream_default p_file_name p_openmode;
     total_bytes_written := 0 |}.

Definition get_file_name (s : t) : string := file_name (base s).

Definition get_total_bytes_written (s : t) : Z := total_bytes_written s.

(** [void write(std::uint8_t* p_address, std::uint64_t p_size)]: [data]
    is the [p_size] bytes at [p_address]. *)
Definition write (s : t) (data : list byte) : result t :=
  let p_size := len data in
  let b := base s in
  match memory b with
  | Some mem =>
      let '(mem1, size1) :=
        if STREAM_OBJECT_TYPE.eqb (stream_object_type b) STREAM_OBJECT_TYPE.VECTOR
           && (memory_size b <? wrap64 (current_offset b + p_size))
        then
          let v := vector_resize mem (wrap64 (memory_size b + p_size)) in
          (v, len v)
        else (mem, memory_size b) in
      mem2 ← memcpy_to mem1 (current_offset b) data;
      Ok {| base := set_current_offset (set_memory b mem2 size1)
                      (wrap64 (current_offset b + p_size));
            total_bytes_written := wrap64 (total_bytes_written s + p_size) |}
  | None =>
      Ok {| base := set_file b (fstream_write (file b) data);
            total_bytes_written := wrap64 (total_bytes_written s + p_size) |}
  end.

(** What has reached the sink: the vector or memory region, or the bytes
    handed to the file. *)
Definition contents (s : t) : list byte :=
  match memory (base s) with
  | Some mem => mem
  | None => put_area (file (base s))
  end.

End Output_Stream.

(** ** [struct Header_Metadata] *)

Record Header_Metadata : Type := mk_Header_Metadata {
  names_section_size : Z;
  sizes_section_size : Z;
  files_section_size : Z
}.

Definition Header_Metadata_default : Header_Metadata :=
  {| names_section_size := 0; sizes_section_size := 0; files_section_size := 0 |}.

(** The object representation: three 64-bit words, no padding. *)
Definition Header_Metadata_bytes (m : Header_Metadata) : list byte :=
  uint64_bytes (names_section_size m) ++
  uint64_bytes (sizes_section_size m) ++
  uint64_bytes (files_section_size m).

Definition Header_Metadata_of_bytes (b : list byte) : Header_Metadata :=
  {| names_section_size := le_value (take 8 b);
     sizes_section_size := le_value (take 8 (drop 8 b));
     files_section_size := le_value (take 8 (drop 16 b)) |}.

(** ** [class File] *)

Module File.

Record t : Type := mk {
  name : string;
  size : Z;
  bytes : list byte
}.

(** [File() {}] *)
Definition default : t := {| name := EmptyString; size := 0; bytes := [] |}.

Definition get_size (f : t) : Z := size f.
Definition get_name (f : t) : string := name f.
Definition get_bytes (f : t) : list byte := bytes f.

Definition set_size (f : t) (p_file_size : Z) : t :=
  {| name := name f; size := p_file_size; bytes := bytes f |}.

Definition set_name (f : t) (p_file_name : string) : t :=
  {| name := p_file_name; size := size f; bytes := bytes f |}.

(** [void set_bytes(std::vector<std::uint8_t> p_bytes)] *)
Definition set_bytes (f : t) (p_bytes : list byte) : t :=
  {| name := name f; size := size f; bytes := p_bytes |}.

(** [void set_bytes(std::uint8_t* p_address, std::uint64_t p_size, bool)]:
    [block] is the [p_size] bytes at [p_address]; the buffer is resized
    to [p_size] and then overwritten with them. *)
Definition set_bytes_from (f : t) (block : list byte) : t :=
  {| name := name f; size := len block; bytes := block |}.

(** [File(const std::string&, std::uint8_t*, std::uint64_t, bool)] *)
Definition of_memory (p_file_name : string) (block : list byte) : t :=
  set_bytes_from (set_name default p_file_name) block.

(** [File(std::string p_file_name, std::vector<std::uint8_t> p_bytes)] *)
Definition of_bytes (p_file_name : string) (p_bytes : list byte) : t :=
  {| name := p_file_name; size := len p_bytes; bytes := p_bytes |}.

(** [File(std::string p_file_name, std::uint64_t p_size)] *)
Definition of_size (p_file_name : string) (p_size : Z) : t :=
  {| name := p_file_name; size := p_size; bytes := [] |}.

End File.

(** [std::string::size] *)
Definition string_size (s : string) : Z := Z.of_nat (String.length s).

(** ** Loops *)

(** [for (auto x : xs) body] over a state [S]. *)
Fixpoint for_each {A S : Type} (xs : list A) (body : S -> A -> result S) (s : S)
    : result S :=
  match xs with
  | [] => Ok s
  | x :: r => s' ← body s x; for_each r body s'
  end.

(** [for (int i = i0; i < n; i++) body] with [n] unsigned and [count]
    iterations left: incrementing the counter at [INT_MAX] is undefined. *)
Fixpoint for_int_from {S : Type} (count : nat) (i : Z) (body : Z -> S -> result S) (s : S)
    : result S :=
  match count with
  | O => Ok s
  | S k =>
      s' ← body i s;
      if INT_MAX <=? i then Undefined else for_int_from k (i + 1) body s'
  end.

Definition for_int {S : Type} (n : Z) (body : Z -> S -> result S) (s : S) : result S :=
  for_int_from (Z.to_nat n) 0 body s.

(** ** The packer *)

(** First loop of [bundle]: the three section sizes. *)
Definition accumulate (metadata : Header_Metadata) (f : File.t) : Header_Metadata :=
  {| names_section_size :=
       wrap64 (names_section_size metadata + (string_size (File.get_name f) + 1));
     sizes_section_size := wrap64 (sizes_section_size metadata + sizeof_uint64);
     files_section_size := wrap64 (files_section_size metadata + File.get_size f) |}.

Definition bundle_metadata (p_files : list File.t) : Header_Metadata :=
  fold_left accumulate p_files Header_Metadata_default.

Definition write_name (s : Output_Stream.t) (f : File.t) : result Output_Stream.t :=
  Output_Stream.write s (string_bytes (File.get_name f) ++ [x00]).

Definition write_size (s : Output_Stream.t) (f : File.t) : result Output_Stream.t :=
  Output_Stream.write s (uint64_bytes (File.get_size f)).

(** One round of the byte-by-byte copy loops:
    [char byte = CHAR_MAX; in.read(&byte, 1); out.write(&byte, 1);] *)
Definition copy_byte (st : Input_Stream.t * Output_Stream.t)
    : result (Input_Stream.t * Output_Stream.t) :=
  '(i, buf) ← Input_Stream.read st.1 [CHAR_MAX];
  o ← Output_Stream.write st.2 buf;
  Ok (i, o).

Definition write_payload (disk : gmap string (list byte)) (p_from_memory : bool)
    (s : Output_Stream.t) (f : File.t) : result Output_Stream.t :=
  if p_from_memory then Output_Stream.write s (File.get_bytes f)
  else
    let input_stream := Input_Stream.from_file disk (File.get_name f) ios_in_binary in
    st ← for_int (File.get_size f) (fun _ st => copy_byte st) (input_stream, s);
    Ok st.2.

(** [File bundle(_::Output_Stream&, const std::vector<File>&, bool)]: the
    result pairs the returned record with the stream as the call leaves it. *)
Definition bundle (disk : gmap string (list byte)) (p_output_stream : Output_Stream.t)
    (p_files : list File.t) (p_from_memory : bool) : result (File.t * Output_Stream.t) :=
  let metadata := bundle_metadata p_files in
  s ← Output_Stream.write p_output_stream (Header_Metadata_bytes metadata);
  s ← for_each p_files write_name s;
  s ← for_each p_files write_size s;
  s ← for_each p_files (write_payload disk p_from_memory) s;
  Ok (File.of_size (Output_Stream.get_file_name s)
        (Output_Stream.get_total_bytes_written s), s).

(** Bundle files from memory to disk. *)
Definition bundle_to_disk (disk : gmap string (list byte)) (p_bundle_output_path : string)
    (p_files : list File.t) : result (File.t * Output_Stream.t) :=
  bundle disk (Output_Stream.from_file disk p_bundle_output_path ios_out_binary_app)
    p_files true.

(** Bundle files from memory to memory: the package takes over the buffer
    the stream wrote to. *)
Definition bundle_to_memory (p_files : list File.t) : result File.t :=
  let buffer : list byte := [] in
  '(package, s) ← bundle ∅ (Output_Stream.from_vector buffer (len buffer)) p_files true;
  Ok {| File.name := File.name package; File.size := File.size package;
        File.bytes := Output_Stream.contents s |}.

(** ** The unpacker *)

(** What the unpacker asks of the filesystem, in program order.  An output
    file is flushed when its stream goes out of scope: [file_appended p d]
    says that [p] was opened for append and [d] written to it. *)
Inductive fs_event : Type :=
| create_directories (path : string)
| file_appended (path : string) (data : list byte).

(** [file_name += current_char] *)
Definition push_back (s : string) (c : byte) : string :=
  (s ++ String (ascii_of_byte c) EmptyString)%string.

(** The inner loop of the name reader:
    [while (current_char != '\0') { read(&current_char, 1); file_name += current_char; }] *)
Fixpoint read_name_loop (fuel : nat) (s : Input_Stream.t) (file_name : string)
    (current_char : byte) : result (Input_Stream.t * string) :=
  if Byte.eqb current_char x00 then Ok (s, file_name)
  else
    match fuel with
    | O => OutOfFuel
    | S fuel' =>
        '(s', buf) ← Input_Stream.read s [current_char];
        let c := hd current_char buf in
        read_name_loop fuel' s' (push_back file_name c) c
    end.

Definition read_name (fuel : nat) (st : Input_Stream.t * list string)
    : result (Input_Stream.t * list string) :=
  '(s, file_name) ← read_name_loop fuel st.1 EmptyString CHAR_MAX;
  Ok (s, st.2 ++ [file_name]).

Definition read_size (st : Input_Stream.t * list Z) : result (Input_Stream.t * list Z) :=
  '(s, buf) ← Input_Stream.read st.1 (uint64_bytes 0);
  Ok (s, st.2 ++ [le_value buf]).

Definition is_separator (c : ascii) : bool :=
  Ascii.eqb c "/"%char || Ascii.eqb c "\"%char.

(** [for (int i = name.size() - 1; i > 0; i--)] looking for a separator;
    the result is [original_path], empty when none is found. *)
Fixpoint scan_separator (name : string) (i : nat) : string :=
  match i with
  | O => EmptyString
  | S j =>
      match String.get i name with
      | Some c => if is_separator c then String.substring 0 i name else scan_separator name j
      | None => scan_separator name j
      end
  end.

Definition original_path (name : string) : string :=
  scan_separator name (String.length name - 1).

Definition string_empty (s : string) : bool :=
  match s with
  | EmptyString => true
  | String _ _ => false
  end.

(** The directory loop, with its [if (!p_to_memory) break;]. *)
Fixpoint create_directory_trees (p_output_directory : string) (p_to_memory : bool)
    (names : list string) : list fs_event :=
  match names with
  | [] => []
  | name :: rest =>
      if negb p_to_memory then []
      else
        let original_path := original_path name in
        (if negb (string_empty original_path)
         then [create_directories (p_output_directory ++ "/" ++ original_path)%string]
         else [])
        ++ create_directory_trees p_output_directory p_to_memory rest
  end.

(** The state of the extraction loop: the source, the files extracted so
    far and the filesystem requests made so far. *)
Definition extraction : Type := Input_Stream.t * list File.t * list fs_event.

Definition extract_file (disk : gmap string (list byte)) (p_to_memory : bool)
    (names : list string) (sizes : list Z) (i : Z) (st : extraction) : result extraction :=
  let '(input, debundled_files, events) := st in
  match names !! Z.to_nat i, sizes !! Z.to_nat i with
  | Some file_name, Some file_size =>
      let file_bytes := vector_resize [] file_size in
      let output_stream :=
        if p_to_memory
        then Output_Stream.from_memory (vector_data file_bytes) file_size
        else Output_Stream.from_file disk file_name ios_out_binary_app in
      '(input', output') ←
        for_int file_size (fun _ st => copy_byte st) (input, output_stream);
      if p_to_memory then
        Ok (input',
            debundled_files ++
              [{| File.name := file_name; File.size := file_size;
                  File.bytes := default file_bytes (memory (Output_Stream.base output')) |}],
            events)
      else
        Ok (input',
            debundled_files ++ [File.of_size file_name file_size],
            events ++ [file_appended (c_str file_name)
                         (put_area (file (Output_Stream.base output')))])
  | _, _ => Undefined
  end.

(** [std::vector<File> debundle(_::Input_Stream&, const std::string&, bool)] *)
Definition debundle (fuel : nat) (disk : gmap string (list byte))
    (p_input_stream : Input_Stream.t) (p_output_directory : string) (p_to_memory : bool)
    : result (list File.t * list fs_event) :=
  '(s, buf) ← Input_Stream.read p_input_stream (Header_Metadata_bytes Header_Metadata_default);
  let metadata := Header_Metadata_of_bytes buf in
  let names_section_offset := sizeof_Header_Metadata in
  let number_of_bundled_files := sizes_section_size metadata / sizeof_uint64 in
  let s := Input_Stream.seekg s names_section_offset in
  '(s, names_of_bundled_files) ← for_int number_of_bundled_files (fun _ => read_name fuel) (s, []);
  '(s, sizes_of_bundled_files) ← for_int number_of_bundled_files (fun _ => read_size) (s, []);
  let dirs := create_directory_trees p_output_directory p_to_memory names_of_bundled_files in
  '(_, debundled_files, events) ←
    for_int (len names_of_bundled_files)
      (extract_file disk p_to_memory names_of_bundled_files sizes_of_bundled_files)
      (s, [], dirs);
  Ok (debundled_files, events).

(** Debundle files from memory to disk. *)
Definition debundle_memory_to_disk (fuel : nat) (disk : gmap string (list byte))
    (p_bundle_address : option (list byte)) (p_bundle_size : Z) (p_output_directory : string)
    : result (list File.t * list fs_event) :=
  debundle fuel disk (Input_Stream.from_memory p_bundle_address p_bundle_size)
    p_output_directory false.

(** Debundle files from disk to disk. *)
Definition debundle_disk_to_disk (fuel : nat) (disk : gmap string (list byte))
    (p_bundle_path : string) (p_output_directory : string)
    : result (list File.t * list fs_event) :=
  debundle fuel disk (Input_Stream.from_file disk p_bundle_path ios_in_binary)
    p_output_directory false.

(** Debundle files from memory to memory. *)
Definition debundle_memory_to_memory (fuel : nat) (disk : gmap string (list byte))
    (p_bundle_address : option (list byte)) (p_bundle_size : Z)
    : result (list File.t * list fs_event) :=
  debundle fuel disk (Input_Stream.from_memory p_bundle_address p_bundle_size)
    EmptyString true.

(** Debundle files from disk to memory. *)
Definition debundle_disk_to_memory (fuel : nat) (disk : gmap string (list byte))
    (p_bundle_path : string) : result (list File.t * list fs_event) :=
  debundle fuel disk (Input_Stream.from_file disk p_bundle_path ios_in_binary)
    EmptyString true.

(** [std::vector<File> debundle(File& p_package)]: debundle files to memory. *)
Definition debundle_package (fuel : nat) (disk : gmap string (list byte))
    (p_package : File.t) : result (list File.t * list fs_event) :=
  let buffer_size := len (File.get_bytes p_package) in
  let file_name := File.get_name p_package in
  if 0 <? buffer_size then
    debundle_memory_to_memory fuel disk (vector_data (File.get_bytes p_package)) buffer_size
  else if negb (string_empty file_name) then
    debundle_disk_to_memory fuel disk file_name
  else Ok ([], []).

(** [std::vector<File> debundle(File& p_package, const std::string&)]:
    debundle files to disk. *)
Definition debundle_package_to_disk (fuel : nat) (disk : gmap string (list byte))
    (p_package : File.t) (p_output_directory : string)
    : result (list File.t * list fs_event) :=
  let buffer_size := len (File.get_bytes p_package) in
  let file_name := File.get_name p_package in
  if 0 <? buffer_size then
    debundle_memory_to_disk fuel disk (vector_data (File.get_bytes p_package)) buffer_size
      p_output_directory
  else if negb (string_empty file_name) then
    debundle_disk_to_disk fuel disk file_name p_output_directory
  else Ok ([], []).


(** ** Histories of a [File] record *)

(** The public mutators of [File]. *)
Inductive File_op : Type :=
| op_set_bytes (p_bytes : list byte)
| op_set_bytes_from (block : list byte)
| op_set_size (p_file_size : Z)
| op_set_name (p_file_name : string).

Definition apply_op (f : File.t) (op : File_op) : File.t :=
  match op with
  | op_set_bytes p_bytes => File.set_bytes f p_bytes
  | op_set_bytes_from block => File.set_bytes_from f block
  | op_set_size p_file_size => File.set_size f p_file_size
  | op_set_name p_file_name => File.set_name f p_file_name
  end.

Definition run_ops (ops : list File_op) (f : File.t) : File.t := fold_left apply_op ops f.

(** What the four constructors build. *)
Inductive constructed : File.t -> Prop :=
| constructed_default : constructed File.default
| constructed_of_memory n block : constructed (File.of_memory n block)
| constructed_of_bytes n p_bytes : constructed (File.of_bytes n p_bytes)
| constructed_of_size n p_size : constructed (File.of_size n p_size).

(** When bytes are present, there are as many as the declared size says. *)
Definition payload_matches_size (f : File.t) : bool :=
  match File.bytes f with
  | [] => true
  | _ => len (File.bytes f) =? File.size f
  end.

(** The mutators that set payload and size together, or neither. *)
Definition sets_both_or_neither (op : File_op) : bool :=
  match op with
  | op_set_bytes_from _ | op_set_name _ => true
  | op_set_bytes _ | op_set_size _ => false
  end.

(** ** The bundle layout, as the format describes it *)

Definition Zsum (l : list Z) : Z := foldr Z.add 0 l.

(** One entry of the names section: the name and its terminator. *)
Definition name_entry (f : File.t) : list byte := string_bytes (File.name f) ++ [x00].

(** One entry of the sizes section. *)
Definition size_entry (f : File.t) : list byte := uint64_bytes (File.size f).

(** What [count] one-byte reads, each into a byte preset to [CHAR_MAX],
    deliver from a file stream. *)
Fixpoint file_bytes_read (count : nat) (f : fstream) : list byte :=
  match count with
  | O => []
  | S k => (fstream_read f [CHAR_MAX]).2 ++ file_bytes_read k (fstream_read f [CHAR_MAX]).1
  end.

(** One entry of the files section: the buffer of the record, or the
    declared number of bytes read from the file the record names. *)
Definition payload_entry (disk : gmap string (list byte)) (p_from_memory : bool)
    (f : File.t) : list byte :=
  if p_from_memory then File.bytes f
  else file_bytes_read (Z.to_nat (File.size f))
         (fstream_open disk (File.name f) ios_in_binary).

Definition names_section (p_files : list File.t) : list byte :=
  concat (map name_entry p_files).

Definition sizes_section (p_files : list File.t) : list byte :=
  concat (map size_entry p_files).

Definition files_section (disk : gmap string (list byte)) (p_from_memory : bool)
    (p_files : list File.t) : list byte :=
  concat (map (payload_entry disk p_from_memory) p_files).

(** Header, names, sizes, files. *)
Definition layout (disk : gmap string (list byte)) (p_from_memory : bool)
    (p_files : list File.t) : list byte :=
  Header_Metadata_bytes (bundle_metadata p_files) ++
  names_section p_files ++ sizes_section p_files ++
  files_section disk p_from_memory p_files.

(** The number of payload bytes the packer writes for a record. *)
Definition payload_length (p_from_memory : bool) (f : File.t) : Z :=
  if p_from_memory then len (File.bytes f) else Z.max 0 (File.size f).

Definition names_total (p_files : list File.t) : Z :=
  Zsum (map (fun f => string_size (File.name f) + 1) p_files).

Definition declared_total (p_files : list File.t) : Z :=
  Zsum (map File.size p_files).

Definition bundle_length (p_from_memory : bool) (p_files : list File.t) : Z :=
  sizeof_Header_Metadata + names_total p_files + sizeof_uint64 * len p_files +
  Zsum (map (payload_length p_from_memory) p_files).

(** A record in its materialized phase: name, size and a buffer of
    exactly [size] bytes. *)
Definition materialized (f : File.t) : bool := File.size f =? len (File.bytes f).

(** A declared size the [int] counter of the copy loop can reach. *)
Definition int_sized (f : File.t) : bool := File.size f <=? INT_MAX.

(** ** Sinks *)

(** A sink that only ever appends: a growable buffer written at its end,
    or a file handle in good state; its counter is its length. *)
Definition appending (s : Output_Stream.t) : Prop :=
  Output_Stream.total_bytes_written s = len (Output_Stream.contents s) /\
  match memory (Output_Stream.base s) with
  | Some v =>
      stream_object_type (Output_Stream.base s) = STREAM_OBJECT_TYPE.VECTOR /\
      memory_size (Output_Stream.base s) = len v /\
      current_offset (Output_Stream.base s) = len v
  | None => fstream_good (file (Output_Stream.base s)) = true
  end.

(** The sinks the entry points of the packer open. *)
Inductive fresh_sink : Output_Stream.t -> Prop :=
| fresh_vector : fresh_sink (Output_Stream.from_vector [] 0)
| fresh_file disk p_bundle_output_path :
    fresh_sink (Output_Stream.from_file disk p_bundle_output_path ios_out_binary_app).

(** ** Sample inputs *)

Definition NUL : string := String Ascii.zero EmptyString.

Definition x_txt_files : list File.t := [File.of_bytes "x.txt" (string_bytes "hi")].

(** The bundle the specification's example lists for [x_txt_files]. *)
Definition spec_x_txt_bundle : list byte :=
  [x02; x00; x00; x00; x00; x00; x00; x00] ++
  [x08; x00; x00; x00; x00; x00; x00; x00] ++
  [x02; x00; x00; x00; x00; x00; x00; x00] ++
  string_bytes "x.txt" ++ [x00] ++
  [x02; x00; x00; x00; x00; x00; x00; x00] ++
  string_bytes "hi".

(** The bundle the packer writes for [x_txt_files]. *)
Definition x_txt_bundle : list byte :=
  [x06; x00; x00; x00; x00; x00; x00; x00] ++
  [x08; x00; x00; x00; x00; x00; x00; x00] ++
  [x02; x00; x00; x00; x00; x00; x00; x00] ++
  string_bytes "x.txt" ++ [x00] ++
  [x02; x00; x00; x00; x00; x00; x00; x00] ++
  string_bytes "hi".

Definition nested_files : list File.t :=
  [File.of_bytes "a/b/c.txt" (string_bytes "hello"); File.of_bytes "empty" []].

Definition c_txt_files : list File.t := [File.of_bytes "a/b/c.txt" (string_bytes "hello")].

(** A name that carries its terminator as its last character. *)
Definition ends_with_NUL (s : string) : Prop := exists p : string, s = (p ++ NUL)%string.

Definition is_create_directories (e : fs_event) : bool :=
  match e with
  | create_directories _ => true
  | file_appended _ _ => false
  end.

(** ** Sources *)


(** A source that delivers nothing any more: a memory region whose boundary
    test turns every one-byte read away, or a file handle that has failed. *)
Definition exhausted (s : Input_Stream.t) : bool :=
  match memory s with
  | Some _ => memory_size s <=? wrap64 (current_offset s + 1)
  | None => failbit (file s)
  end.

(** A fixed destination region of [n] bytes, or none at all. *)
Definition region_of (n : nat) (out : Output_Stream.t) : Prop :=
  stream_object_type (Output_Stream.base out) = STREAM_OBJECT_TYPE.MEMORY /\
  forall m, memory (Output_Stream.base out) = Some m -> length m = n.

(** ** Round trips *)






(** ** Packing from paths *)

(** The content of a file as the packer's byte-by-byte copy sees it: an
    absent file has none. *)
Definition stored (disk : gmap string (list byte)) (p_file_name : string) : list byte :=
  default [] (disk !! c_str p_file_name).

(** [fs::file_size(name)]; [None] is the [filesystem_error] it throws for
    a file that does not exist. *)
Definition file_size (disk : gmap string (list byte)) (p_file_name : string) : option Z :=
  len <$> disk !! c_str p_file_name.

(** The loop [files.push_back({file_name, fs::file_size(file_name)})]. *)
Fixpoint describe_files (disk : gmap string (list byte)) (p_file_names : list string)
    : option (list File.t) :=
  match p_file_names with
  | [] => Some []
  | file_name :: rest =>
      size ← file_size disk file_name;
      files ← describe_files disk rest;
      Some (File.of_size file_name size :: files)
  end.


(** Bundle files from disk to memory:
    [File bundle(const std::vector<std::string>&)]. *)
Definition bundle_paths_to_memory (disk : gmap string (list byte))
    (p_file_names : list string) : option (result File.t) :=
  let buffer : list byte := [] in
  let output_stream := Output_Stream.from_vector buffer (len buffer) in
  files ← describe_files disk p_file_names;
  Some ('(package, s) ← bundle disk output_stream files false;
        Ok {| File.name := File.name package; File.size := File.size package;
              File.bytes := Output_Stream.contents s |}).

(** The records a list of paths stands for, loaded. *)
Definition loaded (disk : gmap string (list byte)) (p_file_name : string) : File.t :=
  File.of_bytes p_file_name (stored disk p_file_name).

Definition on_disk (disk : gmap string (list byte)) (p_file_name : string) : bool :=
  match disk !! c_str p_file_name with
  | Some _ => true
  | None => false
  end.

(** The record the path-list overloads build for a path that exists. *)
Definition described (disk : gmap string (list byte)) (p_file_name : string) : File.t :=
  File.of_size p_file_name (len (stored disk p_file_name)).

(** ** Paths *)

(** A string without a path separator. *)
Fixpoint separator_free (s : string) : bool :=
  match s with
  | EmptyString => true
  | String c r => negb (is_separator c) && separator_free r
  end.

(** A memory source over [L] followed by exactly one more byte. *)
Definition memory_at (s : Input_Stream.t) (L : list byte) (last : byte) (k : Z) : Prop :=
  memory s = Some (L ++ [last]) /\ memory_size s = len L + 1 /\
  len L + 1 < 2 ^ 64 /\ current_offset s = k.

Definition nonzero (b : byte) : bool := negb (Byte.eqb b x00).


(** ** The last byte of a bundle in memory *)




(** * Properties *)

(** ** Machine words *)

Lemma wrap64_small (z : Z) : 0 <= z < 2 ^ 64 -> wrap64 z = z.
Proof. intros H. unfold wrap64. by apply Z.mod_small. Qed.

Lemma wrap64_range (z : Z) : 0 <= wrap64 z < 2 ^ 64.
Proof. unfold wrap64. by apply Z.mod_pos_bound. Qed.

Lemma wrap64_add_l (a b : Z) : wrap64 (wrap64 a + b) = wrap64 (a + b).
Proof. unfold wrap64. by rewrite Zplus_mod_idemp_l. Qed.

Lemma len_nonneg {A : Type} (l : list A) : 0 <= len l.
Proof. unfold len. lia. Qed.

Lemma len_app {A : Type} (l k : list A) : len (l ++ k) = len l + len k.
Proof. unfold len. rewrite length_app. lia. Qed.

Lemma len_nil {A : Type} : len (@nil A) = 0.
Proof. reflexivity. Qed.

Lemma len_cons {A : Type} (x : A) (l : list A) : len (x :: l) = 1 + len l.
Proof. unfold len. cbn [length]. lia. Qed.

Lemma Z_of_byte_of_Z (z : Z) : Z_of_byte (byte_of_Z z) = z mod 256.
Proof.
  unfold Z_of_byte, byte_of_Z.
  assert (Hr : 0 <= z mod 256 < 256) by (by apply Z.mod_pos_bound).
  destruct (Byte.of_N (Z.to_N (z mod 256))) as [b|] eqn:E.
  - apply Byte.to_of_N in E. rewrite E. lia.
  - apply Byte.of_N_None_iff in E. lia.
Qed.

Lemma le_value_le_bytes (n : nat) (z : Z) : le_value (le_bytes n z) = z mod 256 ^ Z.of_nat n.
Proof.
  revert z. induction n as [|n IH]; intros z.
  - cbn. by rewrite Z.mod_1_r.
  - cbn [le_bytes le_value]. rewrite Z_of_byte_of_Z, IH.
    rewrite Nat2Z.inj_succ, Z.pow_succ_r by lia.
    rewrite Z.rem_mul_r by lia. reflexivity.
Qed.

Lemma length_le_bytes (n : nat) (z : Z) : length (le_bytes n z) = n.
Proof. revert z. induction n as [|n IH]; intros z; cbn; [done | by rewrite IH]. Qed.

Lemma le_value_uint64_bytes (z : Z) : 0 <= z < 2 ^ 64 -> le_value (uint64_bytes z) = z.
Proof.
  intros H. unfold uint64_bytes. rewrite le_value_le_bytes.
  change (256 ^ Z.of_nat 8) with (2 ^ 64). by apply Z.mod_small.
Qed.

Lemma len_uint64_bytes (z : Z) : len (uint64_bytes z) = 8.
Proof. unfold len, uint64_bytes. by rewrite length_le_bytes. Qed.

(** ** The boundary policy of a memory-backed source *)

(** C6: on a memory-backed source, a read whose end position reaches or
    passes the end of the backing memory returns normally, leaves the
    stream (and with it the read position) as it was and leaves the
    destination untouched. *)
Theorem read_at_end_is_noop (s : Input_Stream.t) (mem dst : list byte) :
  memory s = Some mem ->
  0 <= current_offset s ->
  current_offset s + len dst < 2 ^ 64 ->
  memory_size s <= current_offset s + len dst ->
  Input_Stream.read s dst = Ok (s, dst).
Proof.
  intros Hmem Hoff Hfit Hend. unfold Input_Stream.read. rewrite Hmem.
  rewrite wrap64_small by (pose proof (len_nonneg dst); lia).
  destruct (Z.leb_spec (memory_size s) (current_offset s + len dst)); [done | lia].
Qed.

Lemma read_at_end_is_noop_witness :
  let s := Input_Stream.seekg (Input_Stream.from_memory (Some (replicate 40 x2a)) 40) 39 in
  current_offset s = 39 /\ Input_Stream.read s [CHAR_MAX] = Ok (s, [CHAR_MAX]).
Proof.
  split; [reflexivity |].
  apply (read_at_end_is_noop _ (replicate 40 x2a) [CHAR_MAX]);
    [reflexivity | vm_compute; congruence | vm_compute; reflexivity | vm_compute; congruence].
Defined.

(** ** The [File] record *)

(** [set_size] on a record that holds three bytes leaves the buffer alone. *)
Lemma set_size_breaks_payload_size :
  payload_matches_size
    (run_ops [op_set_size 5] (File.of_bytes "a" [x01; x02; x03])) = false.
Proof. reflexivity. Qed.

Lemma apply_op_keeps_payload_size (f : File.t) (op : File_op) :
  sets_both_or_neither op = true ->
  payload_matches_size f = true ->
  payload_matches_size (apply_op f op) = true.
Proof.
  intros Hop Hf. destruct op as [v|block|z|n]; try discriminate; cbn.
  - unfold payload_matches_size. cbn. destruct block; [done | apply Z.eqb_refl].
  - exact Hf.
Qed.

Lemma constructed_payload_size (f : File.t) :
  constructed f -> payload_matches_size f = true.
Proof.
  intros [|n block|n v|n z]; unfold payload_matches_size; cbn; try done.
  - destruct block; [done | apply Z.eqb_refl].
  - destruct v; [done | apply Z.eqb_refl].
Qed.

(** C9, amended: on a record built by any constructor and then changed only
    through [set_name] and the pointer form of [set_bytes], a non-empty
    payload buffer is exactly as long as the declared size. *)
Theorem payload_size_invariant (f : File.t) (ops : list File_op) :
  constructed f ->
  forallb sets_both_or_neither ops = true ->
  payload_matches_size (run_ops ops f) = true.
Proof.
  intros Hc Hops. apply constructed_payload_size in Hc.
  revert f Hc Hops. induction ops as [|op ops IH]; intros f Hf Hops; [exact Hf |].
  cbn in Hops. apply andb_prop in Hops as [Hop Hops].
  cbn. apply IH; [by apply apply_op_keeps_payload_size | exact Hops].
Qed.

Lemma payload_size_invariant_witness :
  payload_matches_size
    (run_ops [op_set_name "b"; op_set_bytes_from [x01; x02]; op_set_name "c"]
       (File.of_size "a" 7)) = true.
Proof.
  apply (payload_size_invariant (File.of_size "a" 7)
           [op_set_name "b"; op_set_bytes_from [x01; x02]; op_set_name "c"]);
    [apply constructed_of_size | reflexivity].
Defined.

(** ** Dispatch on a package *)

(** C10: [debundle(File&)] unpacks from the package's buffer when that is
    not empty, else from the file the package names when the name is not
    empty, and else returns no files, having read and requested nothing. *)
Theorem debundle_package_dispatch (fuel : nat) (disk : gmap string (list byte))
    (p_package : File.t) :
  (File.bytes p_package <> [] ->
   debundle_package fuel disk p_package =
   debundle fuel disk
     (Input_Stream.from_memory (Some (File.bytes p_package)) (len (File.bytes p_package)))
     EmptyString true) /\
  (File.bytes p_package = [] -> File.name p_package <> EmptyString ->
   debundle_package fuel disk p_package =
   debundle fuel disk
     (Input_Stream.from_file disk (File.name p_package) ios_in_binary) EmptyString true) /\
  (File.bytes p_package = [] -> File.name p_package = EmptyString ->
   debundle_package fuel disk p_package = Ok ([], [])).
Proof.
  destruct p_package as [n z b]. unfold debundle_package. cbn [File.get_bytes File.get_name File.bytes File.name].
  split; [| split].
  - intros Hb. destruct b as [|x b]; [done |].
    rewrite len_cons. pose proof (len_nonneg b).
    destruct (Z.ltb_spec 0 (1 + len b)); [reflexivity | lia].
  - intros -> Hn. destruct n; [done | reflexivity].
  - intros -> ->. reflexivity.
Qed.

Lemma debundle_package_dispatch_witness :
  debundle_package 8 ∅ (File.of_bytes "pkg" x_txt_bundle) =
    debundle 8 ∅ (Input_Stream.from_memory (Some x_txt_bundle) (len x_txt_bundle))
      EmptyString true /\
  debundle_package 8 {[ "b.bin"%string := x_txt_bundle ]} (File.of_size "b.bin" 40) =
    debundle 8 {[ "b.bin"%string := x_txt_bundle ]}
      (Input_Stream.from_file {[ "b.bin"%string := x_txt_bundle ]} "b.bin" ios_in_binary)
      EmptyString true /\
  debundle_package 8 ∅ File.default = Ok ([], []).
Proof.
  split; [| split].
  - apply (proj1 (debundle_package_dispatch 8 ∅ (File.of_bytes "pkg" x_txt_bundle))).
    discriminate.
  - apply (proj1 (proj2 (debundle_package_dispatch 8 {[ "b.bin"%string := x_txt_bundle ]}
                           (File.of_size "b.bin" 40)))); [reflexivity | discriminate].
  - apply (proj2 (proj2 (debundle_package_dispatch 8 ∅ File.default))); reflexivity.
Defined.

(** ** The example bundle *)

(** The first header word of the bundle of ["x.txt"] is 6, the length of
    the names section, where the listed bytes have 2. *)
Lemma x_txt_bundle_not_as_listed :
  exists package,
    bundle_to_memory x_txt_files = Ok package /\
    File.bytes package <> spec_x_txt_bundle /\
    hd x00 (File.bytes package) = x06 /\ hd x00 spec_x_txt_bundle = x02.
Proof.
  eexists. split; [vm_compute; reflexivity |]. split; [| split; reflexivity].
  vm_compute. discriminate.
Qed.

(** C2, amended: packing [("x.txt", "hi")] writes the 40 bytes
    [6,0,0,0,0,0,0,0] [8,0,0,0,0,0,0,0] [2,0,0,0,0,0,0,0], then ["x.txt\0"],
    then the little-endian 64-bit 2, then ["hi"]; unpacking that bundle to
    memory yields exactly one file, of declared size 2. *)
Theorem x_txt_bundle_example (fuel : nat) (disk : gmap string (list byte)) :
  exists package,
    bundle_to_memory x_txt_files = Ok package /\
    File.bytes package = x_txt_bundle /\
    len (File.bytes package) = 40 /\
    exists f events,
      debundle_package (7 + fuel) disk package = Ok ([f], events) /\
      File.size f = 2.
Proof.
  eexists. split; [vm_compute; reflexivity |].
  split; [reflexivity |]. split; [reflexivity |].
  eexists _, _. split; [vm_compute; reflexivity | reflexivity].
Qed.

(** ** Round trip *)

(** C1 at [nested_files]: every name comes back with the terminator
    appended, the last byte of the bundle comes back as [CHAR_MAX], and
    unpacking to memory asks for a directory under the root. *)
Theorem roundtrip_nested_files (fuel : nat) (disk : gmap string (list byte)) :
  exists package,
    bundle_to_memory nested_files = Ok package /\
    debundle_package (11 + fuel) disk package =
    Ok ([ {| File.name := "a/b/c.txt" ++ NUL; File.size := 5;
             File.bytes := string_bytes "hell" ++ [CHAR_MAX] |};
          {| File.name := "empty" ++ NUL; File.size := 0; File.bytes := [] |} ],
        [create_directories "/a/b"]).
Proof. eexists. split; [vm_compute; reflexivity | vm_compute; reflexivity]. Qed.

(** ** Unpacking to disk *)

(** C4 at [c_txt_files]: unpacking to disk under ["out"] requests no
    directory at all; the only request is the append to the file. *)
Theorem debundle_to_disk_makes_no_directory (fuel : nat) (disk : gmap string (list byte)) :
  exists package events,
    bundle_to_memory c_txt_files = Ok package /\
    debundle_package_to_disk (11 + fuel) disk package "out" =
      Ok ([File.of_size ("a/b/c.txt" ++ NUL) 5], events) /\
    filter (fun e => is_create_directories e = true) events = [].
Proof.
  eexists _, _. split; [vm_compute; reflexivity |].
  split; [vm_compute; reflexivity | reflexivity].
Qed.

(** C5 at the bundle of ["x.txt"] stored on disk as ["b.bin"]: unpacking
    to disk under ["out"] appends the two payload bytes to ["x.txt"], not
    to ["out/x.txt"]. *)
Theorem debundle_to_disk_ignores_output_directory (fuel : nat) :
  debundle_disk_to_disk (7 + fuel) {[ "b.bin"%string := x_txt_bundle ]} "b.bin" "out" =
  Ok ([File.of_size ("x.txt" ++ NUL) 2], [file_appended "x.txt" (string_bytes "hi")]).
Proof. vm_compute. reflexivity. Qed.

(** ** The empty bundle *)

(** C7: packing no files gives 24 bytes, all zero, whose three header
    fields are zero, in a buffer as in a file; unpacking them, from memory
    or from a file, gives no files. *)
Theorem empty_bundle (fuel : nat) (disk : gmap string (list byte)) (path : string) :
  exists package,
    bundle_to_memory [] = Ok package /\
    File.bytes package = replicate 24 x00 /\
    File.size package = 24 /\
    (exists s, bundle_to_disk disk path [] = Ok (File.of_size path 24, s) /\
               Output_Stream.contents s = File.bytes package) /\
    Header_Metadata_of_bytes (File.bytes package) = Header_Metadata_default /\
    debundle_package fuel disk package = Ok ([], []) /\
    debundle_disk_to_memory fuel (<[c_str path := File.bytes package]> disk) path
      = Ok ([], []).
Proof.
  eexists. split; [vm_compute; reflexivity |].
  split; [reflexivity |]. split; [reflexivity |].
  split; [eexists; split; reflexivity |]. split; [reflexivity |].
  split; [vm_compute; reflexivity |].
  unfold debundle_disk_to_memory, Input_Stream.from_file, open_file, fstream_open.
  rewrite lookup_insert_eq. vm_compute. reflexivity.
Qed.

(** ** Sinks that append *)

Lemma vector_resize_grow (v : list byte) (k : Z) :
  0 <= k -> vector_resize v (len v + k) = v ++ replicate (Z.to_nat k) x00.
Proof.
  intros Hk. unfold vector_resize, len.
  rewrite take_ge by lia. f_equal. f_equal. lia.
Qed.

Lemma fresh_sink_appending (s : Output_Stream.t) :
  fresh_sink s -> appending s /\ Output_Stream.contents s = [].
Proof. intros [|disk path]; repeat split. Qed.

Lemma write_appending (s : Output_Stream.t) (data : list byte) :
  appending s ->
  len (Output_Stream.contents s) + len data < 2 ^ 64 ->
  exists s',
    Output_Stream.write s data = Ok s' /\
    appending s' /\
    Output_Stream.contents s' = Output_Stream.contents s ++ data /\
    Output_Stream.get_file_name s' = Output_Stream.get_file_name s.
Proof.
  destruct s as [[ty off f fname mem msize] total].
  unfold appending, Output_Stream.contents, Output_Stream.write, Output_Stream.get_file_name.
  cbn [Output_Stream.base Output_Stream.total_bytes_written memory stream_object_type
       memory_size current_offset file file_name].
  pose proof (len_nonneg data) as Hd.
  destruct mem as [v|].
  - intros (-> & -> & -> & ->) Hfit. pose proof (len_nonneg v) as Hv.
    rewrite !wrap64_small by lia. cbn [STREAM_OBJECT_TYPE.eqb andb].
    destruct (Z.ltb_spec (len v) (len v + len data)) as [Hlt|Hge].
    + rewrite vector_resize_grow by lia.
      unfold memcpy_to.
      assert (Hlen : len (v ++ replicate (Z.to_nat (len data)) x00) = len v + len data).
      { rewrite len_app. unfold len. rewrite length_replicate. lia. }
      rewrite Hlen.
      destruct (Z.leb_spec 0 (len v)); [| lia].
      destruct (Z.leb_spec (len v + len data) (len v + len data)); [| lia].
      cbn [andb mbind result_bind]. eexists. split; [reflexivity |].
      cbn [Output_Stream.base Output_Stream.total_bytes_written memory set_current_offset
           set_memory stream_object_type memory_size current_offset file_name].
      assert (Hres : take (Z.to_nat (len v)) (v ++ replicate (Z.to_nat (len data)) x00) ++
                     data ++
                     drop (Z.to_nat (len v + len data))
                       (v ++ replicate (Z.to_nat (len data)) x00) = v ++ data).
      { unfold len. rewrite Nat2Z.id. rewrite take_app_length.
        rewrite drop_ge; [by rewrite app_nil_r |].
        rewrite length_app, length_replicate. lia. }
      rewrite Hres. rewrite len_app. repeat split; reflexivity.
    + assert (data = []) as ->.
      { destruct data; [done |]. rewrite len_cons in Hge. pose proof (len_nonneg data). lia. }
      unfold memcpy_to. rewrite len_nil, Z.add_0_r.
      destruct (Z.leb_spec 0 (len v)); [| lia].
      destruct (Z.leb_spec (len v) (len v)); [| lia].
      cbn [andb mbind result_bind]. eexists. split; [reflexivity |].
      cbn [Output_Stream.base Output_Stream.total_bytes_written memory set_current_offset
           set_memory stream_object_type memory_size current_offset file_name].
      assert (Hres : take (Z.to_nat (len v)) v ++ [] ++ drop (Z.to_nat (len v)) v = v).
      { unfold len. rewrite Nat2Z.id. rewrite take_ge, drop_ge by lia.
        cbn [app]. by rewrite app_nil_r. }
      rewrite Hres, app_nil_r. repeat split; reflexivity.
  - intros (-> & Hgood) Hfit. pose proof (len_nonneg (put_area f)) as Hp.
    eexists. split; [reflexivity |].
    cbn [Output_Stream.base Output_Stream.total_bytes_written memory set_file file file_name].
    unfold fstream_write. rewrite Hgood. cbn [put_area].
    rewrite wrap64_small by lia. rewrite len_app.
    repeat split; try reflexivity.
    unfold fstream_good in *. cbn. exact Hgood.
Qed.

(** A loop whose every round appends [g x] appends their concatenation. *)
Lemma for_each_appending {A : Type} (g : A -> list byte)
    (body : Output_Stream.t -> A -> result Output_Stream.t) (xs : list A) :
  (forall s x, x ∈ xs -> appending s ->
     len (Output_Stream.contents s) + len (g x) < 2 ^ 64 ->
     exists s', body s x = Ok s' /\ appending s' /\
       Output_Stream.contents s' = Output_Stream.contents s ++ g x /\
       Output_Stream.get_file_name s' = Output_Stream.get_file_name s) ->
  forall s, appending s ->
    len (Output_Stream.contents s) + len (concat (map g xs)) < 2 ^ 64 ->
    exists s', for_each xs body s = Ok s' /\ appending s' /\
      Output_Stream.contents s' = Output_Stream.contents s ++ concat (map g xs) /\
      Output_Stream.get_file_name s' = Output_Stream.get_file_name s.
Proof.
  induction xs as [|x xs IH]; intros Hbody s Hs Hfit.
  - exists s. cbn. rewrite app_nil_r. done.
  - cbn [map concat] in *. rewrite len_app in Hfit.
    pose proof (len_nonneg (g x)). pose proof (len_nonneg (concat (map g xs))).
    destruct (Hbody s x) as (s1 & E1 & A1 & C1 & N1); [left | done | lia |].
    destruct (IH (fun s y Hy => Hbody s y (list_elem_of_further _ _ _ Hy)) s1 A1)
      as (s2 & E2 & A2 & C2 & N2).
    { rewrite C1, len_app. lia. }
    exists s2. cbn [for_each]. rewrite E1. cbn [mbind result_bind].
    rewrite E2, C2, C1, N2, N1, app_assoc. done.
Qed.

(** ** The copy loop *)

Lemma fstream_read_length (f : fstream) (dst : list byte) :
  length (fstream_read f dst).2 = length dst.
Proof.
  unfold fstream_read. destruct (fstream_good f); [| reflexivity].
  cbv zeta. destruct (Z.leb_spec (len dst) (len (drop (Z.to_nat (gpos f)) (get_area f))))
    as [Hle|Hgt]; cbn [snd]; unfold len in *.
  - rewrite length_take. lia.
  - rewrite length_app, !length_drop. rewrite length_drop in Hgt. lia.
Qed.

Lemma length_file_bytes_read (count : nat) (f : fstream) :
  length (file_bytes_read count f) = count.
Proof.
  revert f. induction count as [|count IH]; intros f; [reflexivity |].
  cbn [file_bytes_read]. rewrite length_app, fstream_read_length, IH. reflexivity.
Qed.

Lemma copy_byte_from_file (input : Input_Stream.t) (out : Output_Stream.t) :
  memory input = None ->
  copy_byte (input, out) =
  (o ← Output_Stream.write out (fstream_read (file input) [CHAR_MAX]).2;
   Ok (set_file input (fstream_read (file input) [CHAR_MAX]).1, o)).
Proof.
  intros Hmem. unfold copy_byte. cbn [fst snd]. unfold Input_Stream.read. rewrite Hmem.
  destruct (fstream_read (file input) [CHAR_MAX]) as [f buf]. reflexivity.
Qed.

Lemma copy_loop_appending (count : nat) :
  forall (i : Z) (input : Input_Stream.t) (out : Output_Stream.t),
    memory input = None ->
    appending out ->
    i + Z.of_nat count <= INT_MAX ->
    len (Output_Stream.contents out) + Z.of_nat count < 2 ^ 64 ->
    exists input' out',
      for_int_from count i (fun _ st => copy_byte st) (input, out) = Ok (input', out') /\
      appending out' /\
      Output_Stream.contents out' =
        Output_Stream.contents out ++ file_bytes_read count (file input) /\
      Output_Stream.get_file_name out' = Output_Stream.get_file_name out.
Proof.
  induction count as [|count IH]; intros i input out Hmem Hout Hint Hfit.
  - exists input, out. cbn. rewrite app_nil_r. done.
  - cbn [for_int_from file_bytes_read].
    rewrite (copy_byte_from_file input out Hmem).
    destruct (fstream_read (file input) [CHAR_MAX]) as [f buf] eqn:Er.
    assert (Hbuf : len buf = 1).
    { pose proof (fstream_read_length (file input) [CHAR_MAX]) as Hl.
      rewrite Er in Hl. cbn in Hl. unfold len. lia. }
    cbn [fst snd].
    destruct (write_appending out buf Hout) as (out1 & E1 & A1 & C1 & N1); [lia |].
    rewrite E1. cbn [mbind result_bind].
    destruct (Z.leb_spec INT_MAX i) as [Hbad|_]; [lia |].
    destruct (IH (i + 1) (set_file input f) out1) as (input2 & out2 & E2 & A2 & C2 & N2);
      [exact Hmem | exact A1 | lia | rewrite C1, len_app; lia |].
    exists input2, out2. split; [exact E2 |]. split; [exact A2 |].
    rewrite C2, C1, N2, N1. cbn [file set_file]. by rewrite app_assoc.
Qed.

(** ** The layout of a bundle *)

Lemma len_string_bytes (s : string) : len (string_bytes s) = string_size s.
Proof.
  unfold len, string_bytes, string_size. f_equal.
  induction s as [|c s IH]; [reflexivity |].
  cbn. f_equal. exact IH.
Qed.

Lemma len_name_entry (f : File.t) : len (name_entry f) = string_size (File.name f) + 1.
Proof. unfold name_entry. rewrite len_app, len_string_bytes. reflexivity. Qed.

Lemma len_size_entry (f : File.t) : len (size_entry f) = sizeof_uint64.
Proof. apply len_uint64_bytes. Qed.

Lemma len_payload_entry disk (p_from_memory : bool) (f : File.t) :
  len (payload_entry disk p_from_memory f) = payload_length p_from_memory f.
Proof.
  unfold payload_entry, payload_length. destruct p_from_memory; [reflexivity |].
  unfold len. rewrite length_file_bytes_read. lia.
Qed.

Lemma len_concat_map {A : Type} (g : A -> list byte) (xs : list A) :
  len (concat (map g xs)) = Zsum (map (fun x => len (g x)) xs).
Proof.
  induction xs as [|x xs IH]; [reflexivity |].
  cbn [map concat Zsum foldr]. rewrite len_app, IH. reflexivity.
Qed.

Lemma Zsum_const {A : Type} (c : Z) (xs : list A) :
  Zsum (map (fun _ => c) xs) = c * len xs.
Proof.
  induction xs as [|x xs IH]; [change (0 = c * 0); lia |].
  rewrite len_cons. cbn [map]. change (Zsum (c :: map (fun _ : A => c) xs))
    with (c + Zsum (map (fun _ : A => c) xs)). rewrite IH. lia.
Qed.

Lemma Zsum_ext {A : Type} (g h : A -> Z) (xs : list A) :
  (forall x, g x = h x) -> Zsum (map g xs) = Zsum (map h xs).
Proof. intros E. f_equal. apply map_ext. exact E. Qed.

Lemma len_Header_Metadata_bytes (m : Header_Metadata) :
  len (Header_Metadata_bytes m) = sizeof_Header_Metadata.
Proof. unfold Header_Metadata_bytes. rewrite !len_app, !len_uint64_bytes. reflexivity. Qed.

Lemma len_names_section (p_files : list File.t) :
  len (names_section p_files) = names_total p_files.
Proof.
  unfold names_section, names_total. rewrite len_concat_map.
  apply Zsum_ext, len_name_entry.
Qed.

Lemma len_sizes_section (p_files : list File.t) :
  len (sizes_section p_files) = sizeof_uint64 * len p_files.
Proof.
  unfold sizes_section. rewrite len_concat_map.
  rewrite (Zsum_ext _ (fun _ => sizeof_uint64)) by apply len_size_entry.
  apply Zsum_const.
Qed.

Lemma len_files_section disk (p_from_memory : bool) (p_files : list File.t) :
  len (files_section disk p_from_memory p_files) =
  Zsum (map (payload_length p_from_memory) p_files).
Proof.
  unfold files_section. rewrite len_concat_map.
  apply Zsum_ext, len_payload_entry.
Qed.

Lemma len_layout disk (p_from_memory : bool) (p_files : list File.t) :
  len (layout disk p_from_memory p_files) = bundle_length p_from_memory p_files.
Proof.
  unfold layout, bundle_length.
  rewrite !len_app, len_Header_Metadata_bytes, len_names_section, len_sizes_section,
    len_files_section. lia.
Qed.

Lemma write_payload_appending disk (p_from_memory : bool) (s : Output_Stream.t) (f : File.t) :
  (p_from_memory = false -> File.size f <= INT_MAX) ->
  appending s ->
  len (Output_Stream.contents s) + len (payload_entry disk p_from_memory f) < 2 ^ 64 ->
  exists s',
    write_payload disk p_from_memory s f = Ok s' /\
    appending s' /\
    Output_Stream.contents s' = Output_Stream.contents s ++ payload_entry disk p_from_memory f /\
    Output_Stream.get_file_name s' = Output_Stream.get_file_name s.
Proof.
  intros Hint Hs Hfit. unfold write_payload, payload_entry in *.
  destruct p_from_memory.
  - by apply write_appending.
  - unfold for_int, File.get_size, File.get_name.
    destruct (copy_loop_appending (Z.to_nat (File.size f)) 0
                (Input_Stream.from_file disk (File.name f) ios_in_binary) s)
      as (i' & s' & E & A & C & N);
      [reflexivity | exact Hs | specialize (Hint eq_refl); unfold INT_MAX in *; lia | |].
    { unfold len in Hfit. rewrite length_file_bytes_read in Hfit. exact Hfit. }
    rewrite E. cbn [mbind result_bind snd]. exists s'. done.
Qed.

Lemma names_total_nonneg (p_files : list File.t) : 0 <= names_total p_files.
Proof. rewrite <- len_names_section. apply len_nonneg. Qed.

Lemma payload_total_nonneg (p_from_memory : bool) (p_files : list File.t) :
  0 <= Zsum (map (payload_length p_from_memory) p_files).
Proof. rewrite <- (len_files_section ∅). apply len_nonneg. Qed.

Lemma forallb_elem_of {A : Type} (p : A -> bool) (xs : list A) (x : A) :
  forallb p xs = true -> x ∈ xs -> p x = true.
Proof.
  intros H Hx. apply list_elem_of_In in Hx.
  by apply (proj1 (forallb_forall p xs) H).
Qed.

(** The packer leaves an appending sink longer by exactly the layout, and
    reports the sink's counter. *)
Lemma bundle_layout disk (s : Output_Stream.t) (p_files : list File.t)
    (p_from_memory : bool) :
  appending s ->
  (p_from_memory = false -> forallb int_sized p_files = true) ->
  len (Output_Stream.contents s) + bundle_length p_from_memory p_files < 2 ^ 64 ->
  exists s',
    bundle disk s p_files p_from_memory =
      Ok (File.of_size (Output_Stream.get_file_name s)
            (len (Output_Stream.contents s) + bundle_length p_from_memory p_files), s') /\
    appending s' /\
    Output_Stream.contents s' = Output_Stream.contents s ++ layout disk p_from_memory p_files.
Proof.
  intros Hs Hint Hfit.
  pose proof (len_layout disk p_from_memory p_files) as Hlen.
  unfold layout in Hlen |- *. rewrite !len_app in Hlen.
  set (hdr := Header_Metadata_bytes (bundle_metadata p_files)) in *.
  set (ns := names_section p_files) in *.
  set (ss := sizes_section p_files) in *.
  set (fs := files_section disk p_from_memory p_files) in *.
  pose proof (len_nonneg hdr). pose proof (len_nonneg ns).
  pose proof (len_nonneg ss). pose proof (len_nonneg fs).
  unfold bundle.
  destruct (write_appending s hdr Hs) as (s1 & E1 & A1 & C1 & N1); [lia |].
  fold hdr. rewrite E1. cbn [mbind result_bind].
  destruct (for_each_appending name_entry write_name p_files) with (s := s1)
    as (s2 & E2 & A2 & C2 & N2).
  { intros s0 x _ Hs0 Hb. by apply write_appending. }
  { exact A1. }
  { fold (names_section p_files). fold ns. rewrite C1, len_app. lia. }
  rewrite E2. cbn [mbind result_bind].
  destruct (for_each_appending size_entry write_size p_files) with (s := s2)
    as (s3 & E3 & A3 & C3 & N3).
  { intros s0 x _ Hs0 Hb. by apply write_appending. }
  { exact A2. }
  { fold (sizes_section p_files). fold ss. rewrite C2, C1. fold (names_section p_files).
    fold ns. rewrite !len_app. lia. }
  rewrite E3. cbn [mbind result_bind].
  destruct (for_each_appending (payload_entry disk p_from_memory)
              (write_payload disk p_from_memory) p_files) with (s := s3)
    as (s4 & E4 & A4 & C4 & N4).
  { intros s0 x Hx Hs0 Hb. apply write_payload_appending; [| done | done].
    intros ->. specialize (Hint eq_refl).
    pose proof (forallb_elem_of int_sized p_files x Hint Hx) as Hi.
    unfold int_sized in Hi. lia. }
  { exact A3. }
  { fold (files_section disk p_from_memory p_files). fold fs. rewrite C3, C2, C1.
    fold (names_section p_files) (sizes_section p_files). fold ns ss.
    rewrite !len_app. lia. }
  rewrite E4. cbn [mbind result_bind].
  assert (Hc : Output_Stream.contents s4 = Output_Stream.contents s ++ hdr ++ ns ++ ss ++ fs).
  { rewrite C4, C3, C2, C1. unfold ns, ss, fs, names_section, sizes_section, files_section.
    by rewrite <- !app_assoc. }
  exists s4. split; [| split; [exact A4 | exact Hc]].
  unfold Output_Stream.get_total_bytes_written.
  destruct A4 as [-> _]. rewrite Hc, N4, N3, N2, N1, !len_app.
  do 3 f_equal. lia.
Qed.

(** ** The header of a bundle *)

Lemma Zsum_cons (x : Z) (l : list Z) : Zsum (x :: l) = x + Zsum l.
Proof. reflexivity. Qed.

Lemma string_size_nonneg (s : string) : 0 <= string_size s.
Proof. unfold string_size. lia. Qed.

Lemma names_total_cons (f : File.t) (fs : list File.t) :
  names_total (f :: fs) = string_size (File.name f) + 1 + names_total fs.
Proof. reflexivity. Qed.

Lemma declared_total_cons (f : File.t) (fs : list File.t) :
  declared_total (f :: fs) = File.size f + declared_total fs.
Proof. reflexivity. Qed.

Lemma declared_total_nonneg (p_files : list File.t) :
  forallb (fun f => 0 <=? File.size f) p_files = true -> 0 <= declared_total p_files.
Proof.
  induction p_files as [|f fs IH]; intros Hpos; [done |].
  cbn [forallb] in Hpos. apply andb_prop in Hpos as [Hf Hpos].
  rewrite declared_total_cons. specialize (IH Hpos). lia.
Qed.

Lemma fold_accumulate (p_files : list File.t) :
  forall m : Header_Metadata,
    0 <= names_section_size m -> 0 <= sizes_section_size m -> 0 <= files_section_size m ->
    forallb (fun f => 0 <=? File.size f) p_files = true ->
    names_section_size m + names_total p_files < 2 ^ 64 ->
    sizes_section_size m + sizeof_uint64 * len p_files < 2 ^ 64 ->
    files_section_size m + declared_total p_files < 2 ^ 64 ->
    fold_left accumulate p_files m =
    {| names_section_size := names_section_size m + names_total p_files;
       sizes_section_size := sizes_section_size m + sizeof_uint64 * len p_files;
       files_section_size := files_section_size m + declared_total p_files |}.
Proof.
  induction p_files as [|f fs IH]; intros m Hn Hs Hf Hpos Bn Bs Bf.
  - destruct m as [n s f]. unfold names_total, declared_total, sizeof_uint64.
    change (len (@nil File.t)) with 0.
    cbn [fold_left map Zsum foldr names_section_size sizes_section_size files_section_size].
    f_equal; lia.
  - cbn [forallb] in Hpos. apply andb_prop in Hpos as [Hf0 Hpos].
    rewrite names_total_cons in Bn |- *. rewrite declared_total_cons in Bf |- *.
    rewrite len_cons in Bs |- *.
    pose proof (names_total_nonneg fs) as Nn.
    pose proof (string_size_nonneg (File.name f)) as Ns.
    pose proof (len_nonneg fs) as Nl.
    pose proof (declared_total_nonneg fs Hpos) as Nd.
    unfold sizeof_uint64 in *.
    assert (Ea : accumulate m f =
                 {| names_section_size := names_section_size m + (string_size (File.name f) + 1);
                    sizes_section_size := sizes_section_size m + 8;
                    files_section_size := files_section_size m + File.size f |}).
    { unfold accumulate, File.get_name, File.get_size, sizeof_uint64.
      rewrite !wrap64_small by lia. reflexivity. }
    cbn [fold_left]. rewrite Ea.
    rewrite IH; cbn [names_section_size sizes_section_size files_section_size];
      try lia; [| exact Hpos].
    f_equal; lia.
Qed.

Lemma Header_Metadata_of_bytes_app (m : Header_Metadata) (rest : list byte) :
  0 <= names_section_size m < 2 ^ 64 ->
  0 <= sizes_section_size m < 2 ^ 64 ->
  0 <= files_section_size m < 2 ^ 64 ->
  Header_Metadata_of_bytes (Header_Metadata_bytes m ++ rest) = m.
Proof.
  intros Hn Hs Hf. destruct m as [n s f]. cbn [names_section_size sizes_section_size
    files_section_size] in *.
  unfold Header_Metadata_of_bytes, Header_Metadata_bytes.
  cbn [names_section_size sizes_section_size files_section_size].
  rewrite <- !app_assoc.
  assert (L : forall z, length (uint64_bytes z) = 8%nat) by (intros; apply length_le_bytes).
  rewrite (take_app_length' (uint64_bytes n)) by (by rewrite L).
  rewrite (drop_app_length' (uint64_bytes n)) by (by rewrite L).
  rewrite (take_app_length' (uint64_bytes s)) by (by rewrite L).
  rewrite (drop_app_ge (uint64_bytes n)) by (rewrite L; lia).
  rewrite L. change (16 - 8)%nat with 8%nat.
  rewrite (drop_app_length' (uint64_bytes s)) by (by rewrite L).
  rewrite (take_app_length' (uint64_bytes f)) by (by rewrite L).
  rewrite !le_value_uint64_bytes by done. reflexivity.
Qed.

Lemma materialized_sizes (p_files : list File.t) :
  forallb materialized p_files = true ->
  forallb (fun f => 0 <=? File.size f) p_files = true /\
  Zsum (map (payload_length true) p_files) = declared_total p_files.
Proof.
  induction p_files as [|f fs IH]; intros Hm; [done |].
  cbn [forallb] in Hm. apply andb_prop in Hm as [Hf Hm].
  destruct (IH Hm) as [Hpos Hsum]. unfold materialized in Hf.
  pose proof (len_nonneg (File.bytes f)).
  split.
  - cbn [forallb]. apply andb_true_intro. split; [lia | exact Hpos].
  - rewrite declared_total_cons. cbn [map]. rewrite Zsum_cons, Hsum.
    unfold payload_length. lia.
Qed.

(** C3: for materialized records packed into a fresh sink, the header at
    offset 0 holds the summed lengths of the names with their terminators,
    eight times the number of files, and the summed declared sizes; the
    reported byte count is 24 plus these three, and so is the number of
    bytes the sink received. *)
Theorem header_arithmetic (disk : gmap string (list byte)) (s : Output_Stream.t)
    (p_files : list File.t) :
  fresh_sink s ->
  forallb materialized p_files = true ->
  bundle_length true p_files < 2 ^ 64 ->
  exists package s',
    bundle disk s p_files true = Ok (package, s') /\
    let header := Header_Metadata_of_bytes (take 24 (Output_Stream.contents s')) in
    names_section_size header = names_total p_files /\
    sizes_section_size header = 8 * len p_files /\
    files_section_size header = declared_total p_files /\
    File.size package =
      24 + names_section_size header + sizes_section_size header + files_section_size header /\
    len (Output_Stream.contents s') = File.size package.
Proof.
  intros Hfresh Hmat Hfit.
  destruct (fresh_sink_appending s Hfresh) as [Hs Hempty].
  destruct (materialized_sizes p_files Hmat) as [Hpos Hsum].
  pose proof (names_total_nonneg p_files) as Hn.
  pose proof (len_nonneg p_files) as Hl.
  pose proof (declared_total_nonneg p_files Hpos) as Hd.
  unfold bundle_length, sizeof_Header_Metadata, sizeof_uint64 in Hfit. rewrite Hsum in Hfit.
  destruct (bundle_layout disk s p_files true Hs) as (s' & E & A & C).
  { discriminate. }
  { rewrite Hempty. unfold bundle_length, sizeof_Header_Metadata, sizeof_uint64.
    rewrite Hsum. change (len (@nil byte)) with 0. lia. }
  rewrite Hempty in E, C. cbn [app] in C. change (len (@nil byte)) with 0 in E.
  assert (Hmeta : bundle_metadata p_files =
                  {| names_section_size := names_total p_files;
                     sizes_section_size := 8 * len p_files;
                     files_section_size := declared_total p_files |}).
  { unfold bundle_metadata. rewrite fold_accumulate; unfold sizeof_uint64;
      cbn [Header_Metadata_default names_section_size sizes_section_size files_section_size];
      try lia; try exact Hpos. reflexivity. }
  assert (Hhdr : Header_Metadata_of_bytes (take 24 (Output_Stream.contents s')) =
                 bundle_metadata p_files).
  { rewrite C. unfold layout.
    rewrite take_app_length' by
      (pose proof (len_Header_Metadata_bytes (bundle_metadata p_files)) as L;
       unfold len, sizeof_Header_Metadata in L; lia).
    rewrite <- (app_nil_r (Header_Metadata_bytes _)).
    apply Header_Metadata_of_bytes_app; rewrite Hmeta;
      cbn [names_section_size sizes_section_size files_section_size]; lia. }
  eexists _, s'. split; [exact E |]. cbv zeta. rewrite Hhdr, Hmeta.
  cbn [names_section_size sizes_section_size files_section_size File.size File.of_size].
  repeat split.
  - unfold bundle_length, sizeof_Header_Metadata, sizeof_uint64. rewrite Hsum. lia.
  - rewrite C, len_layout. lia.
Qed.

Lemma header_arithmetic_witness :
  exists package s',
    bundle ∅ (Output_Stream.from_vector [] 0) nested_files true = Ok (package, s') /\
    let header := Header_Metadata_of_bytes (take 24 (Output_Stream.contents s')) in
    names_section_size header = names_total nested_files /\
    sizes_section_size header = 8 * len nested_files /\
    files_section_size header = declared_total nested_files /\
    File.size package =
      24 + names_section_size header + sizes_section_size header + files_section_size header /\
    len (Output_Stream.contents s') = File.size package.
Proof.
  apply (header_arithmetic ∅ (Output_Stream.from_vector [] 0) nested_files);
    [apply fresh_vector | reflexivity | vm_compute; reflexivity].
Defined.

(** ** Determinism of the packer *)

(** C8: two runs of the packer on the same list, into any two fresh sinks
    (a growable buffer or a file opened for append, in either source
    mode, over the same disk), both return and leave the same bytes in
    their sinks, namely the layout of the list, and report the same byte
    count. *)
Theorem bundle_deterministic (disk : gmap string (list byte)) (s1 s2 : Output_Stream.t)
    (p_files : list File.t) (p_from_memory : bool) :
  fresh_sink s1 ->
  fresh_sink s2 ->
  (p_from_memory = false -> forallb int_sized p_files = true) ->
  bundle_length p_from_memory p_files < 2 ^ 64 ->
  exists package1 s1' package2 s2',
    bundle disk s1 p_files p_from_memory = Ok (package1, s1') /\
    bundle disk s2 p_files p_from_memory = Ok (package2, s2') /\
    Output_Stream.contents s1' = Output_Stream.contents s2' /\
    Output_Stream.contents s1' = layout disk p_from_memory p_files /\
    File.size package1 = File.size package2.
Proof.
  intros H1 H2 Hint Hfit.
  destruct (fresh_sink_appending s1 H1) as [A1 C1].
  destruct (fresh_sink_appending s2 H2) as [A2 C2].
  destruct (bundle_layout disk s1 p_files p_from_memory A1 Hint) as (s1' & E1 & _ & L1).
  { rewrite C1. change (len (@nil byte)) with 0. lia. }
  destruct (bundle_layout disk s2 p_files p_from_memory A2 Hint) as (s2' & E2 & _ & L2).
  { rewrite C2. change (len (@nil byte)) with 0. lia. }
  rewrite C1 in E1, L1. rewrite C2 in E2, L2. cbn [app] in L1, L2.
  eexists _, s1', _, s2'. split; [exact E1 |]. split; [exact E2 |].
  split; [by rewrite L1, L2 |]. split; [exact L1 | reflexivity].
Qed.

Lemma bundle_deterministic_witness :
  exists package1 s1' package2 s2',
    bundle {[ "a.txt"%string := string_bytes "hi" ]} (Output_Stream.from_vector [] 0)
      [File.of_size "a.txt" 2] false = Ok (package1, s1') /\
    bundle {[ "a.txt"%string := string_bytes "hi" ]}
      (Output_Stream.from_file ∅ "out.bin" ios_out_binary_app)
      [File.of_size "a.txt" 2] false = Ok (package2, s2') /\
    Output_Stream.contents s1' = Output_Stream.contents s2' /\
    Output_Stream.contents s1' =
      layout {[ "a.txt"%string := string_bytes "hi" ]} false [File.of_size "a.txt" 2] /\
    File.size package1 = File.size package2.
Proof.
  apply (bundle_deterministic {[ "a.txt"%string := string_bytes "hi" ]}
           (Output_Stream.from_vector [] 0)
           (Output_Stream.from_file ∅ "out.bin" ios_out_binary_app)
           [File.of_size "a.txt" 2] false);
    [apply fresh_vector | apply fresh_file | reflexivity | vm_compute; reflexivity].
Defined.

(** ** What every run of the unpacker does *)

Lemma bind_Ok {A B : Type} (r : result A) (k : A -> result B) (b : B) :
  r ≫= k = Ok b -> exists a, r = Ok a /\ k a = Ok b.
Proof. destruct r as [a| |]; cbn; [eauto | discriminate | discriminate]. Qed.

(** An invariant of the loop body is an invariant of the loop. *)
Lemma for_int_from_invariant {S : Type} (P : S -> Prop) (body : Z -> S -> result S) :
  (forall i s s', P s -> body i s = Ok s' -> P s') ->
  forall count i s s', P s -> for_int_from count i body s = Ok s' -> P s'.
Proof.
  intros Hbody. induction count as [|count IH]; intros i s s' Hs E.
  - cbn in E. by injection E as <-.
  - cbn [for_int_from] in E. apply bind_Ok in E as (s1 & E1 & E).
    destruct (INT_MAX <=? i); [discriminate |].
    eapply IH; [| exact E]. eapply Hbody; eauto.
Qed.

Lemma create_directory_trees_to_disk (p_output_directory : string) (names : list string) :
  create_directory_trees p_output_directory false names = [].
Proof. destruct names; reflexivity. Qed.

(** Unpacking to disk never looks at the output directory. *)
Lemma debundle_to_disk_any_directory (fuel : nat) (disk : gmap string (list byte))
    (s : Input_Stream.t) (d1 d2 : string) :
  debundle fuel disk s d1 false = debundle fuel disk s d2 false.
Proof.
  unfold debundle.
  destruct (Input_Stream.read s _) as [[s1 buf]| |]; cbn [mbind result_bind]; try reflexivity.
  destruct (for_int _ (fun _ => read_name fuel) _) as [[s2 names]| |];
    cbn [mbind result_bind]; try reflexivity.
  destruct (for_int _ (fun _ => read_size) _) as [[s3 sizes]| |];
    cbn [mbind result_bind]; try reflexivity.
  by rewrite !create_directory_trees_to_disk.
Qed.

Lemma extract_file_to_disk_events disk names sizes (i : Z) (st st' : extraction) :
  Forall (fun e => is_create_directories e = false) st.2 ->
  extract_file disk false names sizes i st = Ok st' ->
  Forall (fun e => is_create_directories e = false) st'.2.
Proof.
  destruct st as [[input files] events]. cbn [snd]. intros Hev E.
  unfold extract_file in E.
  destruct (names !! Z.to_nat i) as [file_name|]; [| discriminate].
  destruct (sizes !! Z.to_nat i) as [file_size|]; [| discriminate].
  apply bind_Ok in E as ([input' output'] & _ & E). injection E as <-. cbn [snd].
  apply Forall_app. split; [exact Hev |]. by constructor.
Qed.

(** Unpacking to disk never asks for a directory. *)
Lemma debundle_to_disk_no_directories (fuel : nat) (disk : gmap string (list byte))
    (s : Input_Stream.t) (p_output_directory : string) files events :
  debundle fuel disk s p_output_directory false = Ok (files, events) ->
  Forall (fun e => is_create_directories e = false) events.
Proof.
  unfold debundle. intros E.
  apply bind_Ok in E as ([s1 buf] & _ & E).
  apply bind_Ok in E as ([s2 names] & _ & E).
  apply bind_Ok in E as ([s3 sizes] & _ & E).
  apply bind_Ok in E as ([[s4 files'] events'] & E4 & E). injection E as <- <-.
  rewrite create_directory_trees_to_disk in E4.
  apply (for_int_from_invariant
           (fun st : extraction => Forall (fun e => is_create_directories e = false) st.2))
    in E4; [exact E4 | | by constructor].
  intros i st st'. apply extract_file_to_disk_events.
Qed.

Lemma push_back_NUL (s : string) : push_back s x00 = (s ++ NUL)%string.
Proof. reflexivity. Qed.

Lemma read_name_loop_ends_with_NUL (fuel : nat) :
  forall (s s' : Input_Stream.t) (file_name r : string) (current_char : byte),
    (current_char = x00 -> ends_with_NUL file_name) ->
    read_name_loop fuel s file_name current_char = Ok (s', r) ->
    ends_with_NUL r.
Proof.
  induction fuel as [|fuel IH]; intros s s' file_name r c Hc E; cbn [read_name_loop] in E.
  - destruct (Byte.eqb c x00) eqn:Ec; [| discriminate].
    apply Byte.byte_dec_bl in Ec. injection E as _ <-. by apply Hc.
  - destruct (Byte.eqb c x00) eqn:Ec.
    + apply Byte.byte_dec_bl in Ec. injection E as _ <-. by apply Hc.
    + apply bind_Ok in E as ([s1 buf] & _ & E).
      eapply IH; [| exact E].
      intros ->. rewrite push_back_NUL. by eexists.
Qed.

Lemma read_name_ends_with_NUL (fuel : nat) (st st' : Input_Stream.t * list string) :
  Forall ends_with_NUL st.2 -> read_name fuel st = Ok st' -> Forall ends_with_NUL st'.2.
Proof.
  intros Hst E. unfold read_name in E.
  apply bind_Ok in E as ([s r] & E1 & E). injection E as <-. cbn [snd].
  apply Forall_app. split; [exact Hst |]. constructor; [| constructor].
  eapply read_name_loop_ends_with_NUL; [| exact E1]. discriminate.
Qed.

Lemma extract_file_names disk (p_to_memory : bool) names sizes (i : Z)
    (st st' : extraction) :
  Forall ends_with_NUL names ->
  Forall (fun f => ends_with_NUL (File.name f)) st.1.2 ->
  extract_file disk p_to_memory names sizes i st = Ok st' ->
  Forall (fun f => ends_with_NUL (File.name f)) st'.1.2.
Proof.
  destruct st as [[input files] events]. cbn [fst snd]. intros Hn Hf E.
  unfold extract_file in E.
  destruct (names !! Z.to_nat i) as [file_name|] eqn:En; [| discriminate].
  destruct (sizes !! Z.to_nat i) as [file_size|]; [| discriminate].
  apply bind_Ok in E as ([input' output'] & _ & E).
  assert (Hname : ends_with_NUL file_name).
  { eapply Forall_lookup_1; eauto. }
  destruct p_to_memory; injection E as <-; cbn [fst snd];
    (apply Forall_app; split; [exact Hf | by constructor]).
Qed.

(** Whatever the source and the destination, every file the unpacker
    returns has a name whose last character is the terminator. *)
Lemma debundle_names_end_with_NUL (fuel : nat) (disk : gmap string (list byte))
    (s : Input_Stream.t) (p_output_directory : string) (p_to_memory : bool) files events :
  debundle fuel disk s p_output_directory p_to_memory = Ok (files, events) ->
  Forall (fun f => ends_with_NUL (File.name f)) files.
Proof.
  unfold debundle. intros E.
  apply bind_Ok in E as ([s1 buf] & _ & E).
  apply bind_Ok in E as ([s2 names] & E2 & E).
  apply bind_Ok in E as ([s3 sizes] & _ & E).
  apply bind_Ok in E as ([[s4 files'] events'] & E4 & E). injection E as <- <-.
  apply (for_int_from_invariant
           (fun st : Input_Stream.t * list string => Forall ends_with_NUL st.2))
    in E2; [| intros i st st'; apply read_name_ends_with_NUL | by constructor].
  apply (for_int_from_invariant
           (fun st : extraction => Forall (fun f => ends_with_NUL (File.name f)) st.1.2))
    in E4; [exact E4 | | by constructor].
  intros i st st'. by apply extract_file_names.
Qed.


(** A memory-backed source never advances to its end: the read that would
    deliver its last byte is the one the boundary test turns away. *)
Lemma read_stays_before_end (s s' : Input_Stream.t) (mem dst buf : list byte) :
  memory s = Some mem ->
  current_offset s < memory_size s ->
  Input_Stream.read s dst = Ok (s', buf) ->
  current_offset s' < memory_size s' /\ memory_size s' = memory_size s.
Proof.
  intros Hmem Hoff E. unfold Input_Stream.read in E. rewrite Hmem in E.
  destruct (Z.leb_spec (memory_size s) (wrap64 (current_offset s + len dst))) as [Hge|Hlt].
  - injection E as <- <-. done.
  - apply bind_Ok in E as (data & _ & E). injection E as <- <-.
    cbn [current_offset memory_size set_current_offset]. done.
Qed.

(** * Further properties of the streams, the packer and the unpacker *)

(** ** Writing *)

(** X1: a write to a growable buffer positioned at its end, or to a file
    handle in good state, returns, leaves the sink longer by exactly the
    bytes written (the buffer is resized to fit, no more), and adds their
    number to the counter. *)
Theorem write_grows_to_fit (s : Output_Stream.t) (data : list byte) :
  appending s ->
  len (Output_Stream.contents s) + len data < 2 ^ 64 ->
  exists s',
    Output_Stream.write s data = Ok s' /\
    Output_Stream.contents s' = Output_Stream.contents s ++ data /\
    Output_Stream.get_total_bytes_written s' =
      Output_Stream.get_total_bytes_written s + len data /\
    appending s'.
Proof.
  intros Hs Hfit.
  destruct (write_appending s data Hs Hfit) as (s' & E & A & C & _).
  exists s'. split; [exact E |]. split; [exact C |]. split; [| exact A].
  unfold Output_Stream.get_total_bytes_written.
  destruct A as [-> _]. destruct Hs as [-> _]. by rewrite C, len_app.
Qed.

Lemma write_grows_to_fit_witness :
  exists s',
    Output_Stream.write (Output_Stream.from_vector [] 0) [x01; x02] = Ok s' /\
    Output_Stream.contents s' = Output_Stream.contents (Output_Stream.from_vector [] 0) ++ [x01; x02] /\
    Output_Stream.get_total_bytes_written s' =
      Output_Stream.get_total_bytes_written (Output_Stream.from_vector [] 0) + len [x01; x02] /\
    appending s'.
Proof.
  apply (write_grows_to_fit (Output_Stream.from_vector [] 0) [x01; x02]);
    [repeat split | vm_compute; reflexivity].
Defined.

(** X2: a write into a fixed memory region that has room for it overwrites
    the bytes at the write position in place: the region keeps its length
    and its bytes before and after the written range, the position and the
    counter advance by the number of bytes written. *)
Theorem write_fixed_region_in_place (s : Output_Stream.t) (mem data : list byte) :
  memory (Output_Stream.base s) = Some mem ->
  stream_object_type (Output_Stream.base s) = STREAM_OBJECT_TYPE.MEMORY ->
  0 <= current_offset (Output_Stream.base s) ->
  current_offset (Output_Stream.base s) + len data <= len mem ->
  len mem < 2 ^ 64 ->
  exists s',
    Output_Stream.write s data = Ok s' /\
    Output_Stream.contents s' =
      take (Z.to_nat (current_offset (Output_Stream.base s))) mem ++ data ++
      drop (Z.to_nat (current_offset (Output_Stream.base s) + len data)) mem /\
    len (Output_Stream.contents s') = len mem /\
    current_offset (Output_Stream.base s') = current_offset (Output_Stream.base s) + len data /\
    memory_size (Output_Stream.base s') = memory_size (Output_Stream.base s) /\
    Output_Stream.total_bytes_written s' =
      wrap64 (Output_Stream.total_bytes_written s + len data).
Proof.
  destruct s as [[ty off f fname m msize] total].
  cbn [Output_Stream.base Output_Stream.total_bytes_written memory stream_object_type
       current_offset memory_size].
  intros -> -> Hoff Hfit Hmem. pose proof (len_nonneg data) as Hd.
  unfold Output_Stream.write, Output_Stream.contents.
  cbn [Output_Stream.base Output_Stream.total_bytes_written memory stream_object_type
       current_offset memory_size STREAM_OBJECT_TYPE.eqb andb].
  unfold memcpy_to.
  destruct (Z.leb_spec 0 off); [| lia].
  destruct (Z.leb_spec (off + len data) (len mem)); [| lia].
  cbn [andb mbind result_bind]. eexists. split; [reflexivity |].
  cbn [Output_Stream.base Output_Stream.total_bytes_written memory set_current_offset
       set_memory current_offset memory_size].
  rewrite wrap64_small by lia. repeat split.
  rewrite !len_app. unfold len in *. rewrite length_take, length_drop. lia.
Qed.

Lemma write_fixed_region_in_place_witness :
  exists s',
    Output_Stream.write (Output_Stream.from_memory (Some [x00; x00; x00]) 3) [x01; x02] = Ok s' /\
    Output_Stream.contents s' = [x01; x02; x00].
Proof.
  destruct (write_fixed_region_in_place
              (Output_Stream.from_memory (Some [x00; x00; x00]) 3) [x00; x00; x00] [x01; x02])
    as (s' & E & C & _);
    [reflexivity | reflexivity | vm_compute; congruence | vm_compute; congruence
    | vm_compute; reflexivity |].
  exists s'. split; [exact E | exact C].
Defined.

(** X3: a fixed memory region never grows, and the write does not check
    its extent: a write that ends past the end of the region copies out of
    bounds. *)
Theorem write_fixed_region_overflow (s : Output_Stream.t) (mem data : list byte) :
  memory (Output_Stream.base s) = Some mem ->
  stream_object_type (Output_Stream.base s) = STREAM_OBJECT_TYPE.MEMORY ->
  len mem < current_offset (Output_Stream.base s) + len data ->
  Output_Stream.write s data = Undefined.
Proof.
  destruct s as [[ty off f fname m msize] total].
  cbn [Output_Stream.base memory stream_object_type current_offset].
  intros -> -> Hover. unfold Output_Stream.write.
  cbn [Output_Stream.base Output_Stream.total_bytes_written memory stream_object_type
       current_offset memory_size STREAM_OBJECT_TYPE.eqb andb].
  unfold memcpy_to.
  destruct (Z.leb_spec (off + len data) (len mem)); [lia |].
  by rewrite andb_false_r.
Qed.

Lemma write_fixed_region_overflow_witness :
  Output_Stream.write (Output_Stream.from_memory (Some [x00]) 1) [x01; x02] = Undefined.
Proof.
  apply (write_fixed_region_overflow (Output_Stream.from_memory (Some [x00]) 1) [x00] [x01; x02]);
    [reflexivity | reflexivity | vm_compute; reflexivity].
Defined.

(** X4: a stream without memory whose file handle is not in good state (it
    was never opened, or has failed) drops what is written to it, and
    counts the bytes all the same. *)
Theorem write_to_bad_file_counts (s : Output_Stream.t) (data : list byte) :
  memory (Output_Stream.base s) = None ->
  fstream_good (file (Output_Stream.base s)) = false ->
  exists s',
    Output_Stream.write s data = Ok s' /\
    Output_Stream.contents s' = Output_Stream.contents s /\
    Output_Stream.total_bytes_written s' =
      wrap64 (Output_Stream.total_bytes_written s + len data) /\
    fstream_good (file (Output_Stream.base s')) = false.
Proof.
  destruct s as [[ty off f fname m msize] total].
  cbn [Output_Stream.base memory file]. intros -> Hbad.
  unfold Output_Stream.write, Output_Stream.contents.
  cbn [Output_Stream.base Output_Stream.total_bytes_written memory file].
  eexists. split; [reflexivity |].
  cbn [Output_Stream.base Output_Stream.total_bytes_written memory file set_file].
  unfold fstream_write. rewrite Hbad. cbn [put_area].
  repeat split. unfold fstream_good. cbn. by rewrite andb_false_r.
Qed.

Lemma write_to_bad_file_counts_witness :
  exists s',
    Output_Stream.write Output_Stream.default [x01; x02] = Ok s' /\
    Output_Stream.contents s' = [] /\
    Output_Stream.total_bytes_written s' = 2.
Proof.
  destruct (write_to_bad_file_counts Output_Stream.default [x01; x02])
    as (s' & E & C & T & _); [reflexivity | reflexivity |].
  exists s'. split; [exact E |]. split; [exact C | exact T].
Defined.

(** ** Reading *)

(** X5: a read from a memory-backed source that ends before the last byte
    of the region delivers the bytes at the read position and advances the
    position by their number. *)
Theorem read_delivers (s : Input_Stream.t) (mem dst : list byte) :
  memory s = Some mem ->
  memory_size s = len mem ->
  len mem < 2 ^ 64 ->
  0 <= current_offset s ->
  current_offset s + len dst < len mem ->
  Input_Stream.read s dst =
  Ok (set_current_offset s (current_offset s + len dst),
      take (length dst) (drop (Z.to_nat (current_offset s)) mem)).
Proof.
  intros Hmem Hsize Hfit Hoff Hin. pose proof (len_nonneg dst) as Hd.
  unfold Input_Stream.read. rewrite Hmem, Hsize.
  rewrite wrap64_small by lia.
  destruct (Z.leb_spec (len mem) (current_offset s + len dst)); [lia |].
  unfold memcpy_from.
  destruct (Z.leb_spec 0 (current_offset s)); [| lia].
  destruct (Z.leb_spec (current_offset s + len dst) (len mem)); [| lia].
  cbn [andb mbind result_bind].
  replace (Z.to_nat (len dst)) with (length dst) by (unfold len; lia).
  reflexivity.
Qed.

Lemma read_delivers_witness :
  Input_Stream.read (Input_Stream.from_memory (Some [x0a; x0b; x0c]) 3) [x00; x00] =
  Ok (set_current_offset (Input_Stream.from_memory (Some [x0a; x0b; x0c]) 3) 2, [x0a; x0b]).
Proof.
  apply (read_delivers (Input_Stream.from_memory (Some [x0a; x0b; x0c]) 3)
           [x0a; x0b; x0c] [x00; x00]);
    [reflexivity | reflexivity | vm_compute; reflexivity | vm_compute; congruence
    | vm_compute; reflexivity].
Defined.

(** X6: the read position of a memory-backed source that is before the
    end of the region stays before it through every read, so no read ever
    delivers the last byte of the region. *)
Theorem read_never_reaches_end (s s' : Input_Stream.t) (mem dst buf : list byte) :
  memory s = Some mem ->
  current_offset s < memory_size s ->
  Input_Stream.read s dst = Ok (s', buf) ->
  current_offset s' < memory_size s' /\ memory_size s' = memory_size s /\
  memory s' = Some mem.
Proof.
  intros Hmem Hoff E. unfold Input_Stream.read in E. rewrite Hmem in E.
  destruct (Z.leb_spec (memory_size s) (wrap64 (current_offset s + len dst))) as [Hge|Hlt].
  - injection E as <- <-. done.
  - apply bind_Ok in E as (data & _ & E). injection E as <- <-.
    cbn [current_offset memory_size memory set_current_offset]. done.
Qed.

Lemma read_never_reaches_end_witness :
  exists s' buf,
    Input_Stream.read (Input_Stream.from_memory (Some [x0a; x0b; x0c]) 3) [x00; x00] = Ok (s', buf) /\
    current_offset s' < memory_size s'.
Proof.
  eexists _, _. split; [vm_compute; reflexivity |].
  apply (read_never_reaches_end (Input_Stream.from_memory (Some [x0a; x0b; x0c]) 3) _
           [x0a; x0b; x0c] [x00; x00] [x0a; x0b]);
    [reflexivity | vm_compute; reflexivity | vm_compute; reflexivity].
Defined.

(** Reading [n] bytes at [k] out of [L ++ tail] when they lie within [L]. *)
Lemma take_drop_app_l {A : Type} (L tail : list A) (k n : nat) :
  (k + n <= length L)%nat -> take n (drop k (L ++ tail)) = take n (drop k L).
Proof.
  intros H. rewrite drop_app_le by lia. rewrite take_app_le; [done |].
  rewrite length_drop. lia.
Qed.



(** ** The name reader *)

Lemma exhausted_read (s : Input_Stream.t) (c : byte) :
  exhausted s = true -> Input_Stream.read s [c] = Ok (s, [c]).
Proof.
  unfold exhausted, Input_Stream.read. destruct s as [ty off f fname [mem|] msize];
    cbn [memory memory_size current_offset file].
  - intros H. change (len [c]) with 1. rewrite H. reflexivity.
  - intros Hf. unfold fstream_read, fstream_good. rewrite Hf, andb_false_r.
    unfold set_file. cbn. destruct f as [o fl g p w]. cbn in *. by rewrite Hf.
Qed.

Lemma read_name_loop_exhausted (fuel : nat) (s : Input_Stream.t) (file_name : string)
    (current_char : byte) :
  exhausted s = true ->
  current_char <> x00 ->
  read_name_loop fuel s file_name current_char = OutOfFuel.
Proof.
  intros Hs Hc. revert file_name.
  induction fuel as [|fuel IH]; intros file_name; cbn [read_name_loop].
  - destruct (Byte.eqb current_char x00) eqn:E; [| reflexivity].
    apply Byte.byte_dec_bl in E. done.
  - destruct (Byte.eqb current_char x00) eqn:E.
    + apply Byte.byte_dec_bl in E. done.
    + rewrite (exhausted_read s current_char Hs). cbn [mbind result_bind hd]. apply IH.
Qed.

(** X7: on a source that delivers nothing any more, the name reader never
    meets a terminator: whatever the fuel, the loop is still running when
    the fuel is spent. *)
Theorem read_name_loop_never_ends (fuel : nat) (s : Input_Stream.t) (file_name : string)
    (current_char : byte) :
  exhausted s = true ->
  current_char <> x00 ->
  read_name_loop fuel s file_name current_char = OutOfFuel.
Proof. apply read_name_loop_exhausted. Qed.

Lemma read_name_loop_never_ends_witness :
  read_name_loop 1000 (Input_Stream.seekg (Input_Stream.from_memory (Some [x41; x42]) 2) 1)
    EmptyString CHAR_MAX = OutOfFuel.
Proof.
  apply (read_name_loop_never_ends 1000
           (Input_Stream.seekg (Input_Stream.from_memory (Some [x41; x42]) 2) 1)
           EmptyString CHAR_MAX); [reflexivity | discriminate].
Defined.

(** ** The unpacker on sources that hold no bundle *)

Lemma debundle_after_no_header (fuel : nat) (disk : gmap string (list byte))
    (s : Input_Stream.t) (p_output_directory : string) (p_to_memory : bool) :
  Input_Stream.read s (Header_Metadata_bytes Header_Metadata_default) =
    Ok (s, Header_Metadata_bytes Header_Metadata_default) ->
  debundle fuel disk s p_output_directory p_to_memory = Ok ([], []).
Proof. intros E. unfold debundle. rewrite E. reflexivity. Qed.

(** X8: a memory region of at most 24 bytes unpacks to no files and no
    filesystem request: the header read is itself turned away by the
    boundary test, and the header fields keep their zero initialisers. *)
Theorem debundle_short_memory (fuel : nat) (disk : gmap string (list byte))
    (mem : list byte) (p_output_directory : string) (p_to_memory : bool) :
  len mem <= 24 ->
  debundle fuel disk (Input_Stream.from_memory (Some mem) (len mem))
    p_output_directory p_to_memory = Ok ([], []).
Proof.
  intros Hshort. apply debundle_after_no_header.
  unfold Input_Stream.read, Input_Stream.from_memory, open_memory.
  cbn [memory memory_size current_offset Base_Stream_default].
  change (wrap64 (0 + len (Header_Metadata_bytes Header_Metadata_default))) with 24.
  destruct (Z.leb_spec (len mem) 24); [reflexivity | lia].
Qed.

Lemma debundle_short_memory_witness :
  debundle 0 ∅ (Input_Stream.from_memory (Some [x01; x02; x03]) (len [x01; x02; x03]))
    "out" false = Ok ([], []).
Proof.
  apply (debundle_short_memory 0 ∅ [x01; x02; x03] "out" false). vm_compute. congruence.
Defined.

(** X9: unpacking a bundle file that does not exist returns no files and
    makes no filesystem request, to memory as to disk: the failed open is
    never looked at, and every read on the failed handle is a no-op. *)
Theorem debundle_missing_file (fuel : nat) (disk : gmap string (list byte))
    (p_bundle_path p_output_directory : string) :
  disk !! c_str p_bundle_path = None ->
  debundle_disk_to_memory fuel disk p_bundle_path = Ok ([], []) /\
  debundle_disk_to_disk fuel disk p_bundle_path p_output_directory = Ok ([], []).
Proof.
  intros Hmiss.
  assert (E : Input_Stream.read (Input_Stream.from_file disk p_bundle_path ios_in_binary)
                (Header_Metadata_bytes Header_Metadata_default) =
              Ok (Input_Stream.from_file disk p_bundle_path ios_in_binary,
                  Header_Metadata_bytes Header_Metadata_default)).
  { unfold Input_Stream.from_file, open_file, fstream_open. rewrite Hmiss. reflexivity. }
  split; by apply debundle_after_no_header.
Qed.

Lemma debundle_missing_file_witness :
  debundle_disk_to_memory 0 ∅ "nowhere.bin" = Ok ([], []) /\
  debundle_disk_to_disk 0 ∅ "nowhere.bin" "out" = Ok ([], []).
Proof. apply (debundle_missing_file 0 ∅ "nowhere.bin" "out"). reflexivity. Defined.

(** ** What every run of the unpacker returns *)

(** X10: every file the unpacker returns, whatever the source and the
    destination, has a name whose last character is the terminator: the
    name reader appends each byte it reads, the closing zero included. *)
Theorem debundle_names_keep_terminator (fuel : nat) (disk : gmap string (list byte))
    (s : Input_Stream.t) (p_output_directory : string) (p_to_memory : bool)
    (files : list File.t) (events : list fs_event) :
  debundle fuel disk s p_output_directory p_to_memory = Ok (files, events) ->
  Forall (fun f => ends_with_NUL (File.name f)) files.
Proof.
  unfold debundle. intros E.
  apply bind_Ok in E as ([s1 buf] & _ & E).
  apply bind_Ok in E as ([s2 names] & E2 & E).
  apply bind_Ok in E as ([s3 sizes] & _ & E).
  apply bind_Ok in E as ([[s4 files'] events'] & E4 & E). injection E as <- <-.
  apply (for_int_from_invariant
           (fun st : Input_Stream.t * list string => Forall ends_with_NUL st.2))
    in E2; [| intros i st st'; apply read_name_ends_with_NUL | by constructor].
  apply (for_int_from_invariant
           (fun st : extraction => Forall (fun f => ends_with_NUL (File.name f)) st.1.2))
    in E4; [exact E4 | | by constructor].
  intros i st st'. by apply extract_file_names.
Qed.

Lemma debundle_names_keep_terminator_witness :
  Forall (fun f => ends_with_NUL (File.name f))
    [ {| File.name := "x.txt" ++ NUL; File.size := 2; File.bytes := [x68; x7f] |} ].
Proof.
  apply (debundle_names_keep_terminator 7 ∅
           (Input_Stream.from_memory (Some x_txt_bundle) (len x_txt_bundle)) "" true _ []).
  vm_compute. reflexivity.
Defined.

Lemma extract_file_to_disk_result disk names sizes (i : Z) (st st' : extraction) :
  Forall (fun f => File.bytes f = []) st.1.2 ->
  Forall (fun e => is_create_directories e = false) st.2 ->
  extract_file disk false names sizes i st = Ok st' ->
  Forall (fun f => File.bytes f = []) st'.1.2 /\
  Forall (fun e => is_create_directories e = false) st'.2.
Proof.
  destruct st as [[input files] events]. cbn [fst snd]. intros Hf Hev E.
  unfold extract_file in E.
  destruct (names !! Z.to_nat i) as [file_name|]; [| discriminate].
  destruct (sizes !! Z.to_nat i) as [file_size|]; [| discriminate].
  apply bind_Ok in E as ([input' output'] & _ & E). injection E as <-. cbn [fst snd].
  split; (apply Forall_app; split; [done | by constructor]).
Qed.

(** X11: unpacking to disk never asks for a directory, whatever the names
    in the bundle, and returns every file without bytes; its result does
    not depend on the output directory at all. *)
Theorem debundle_to_disk_requests (fuel : nat) (disk : gmap string (list byte))
    (s : Input_Stream.t) (p_output_directory other_directory : string)
    (files : list File.t) (events : list fs_event) :
  debundle fuel disk s p_output_directory false = Ok (files, events) ->
  Forall (fun e => is_create_directories e = false) events /\
  Forall (fun f => File.bytes f = []) files /\
  debundle fuel disk s other_directory false = Ok (files, events).
Proof.
  intros E. split; [| split].
  - unfold debundle in E.
    apply bind_Ok in E as ([s1 buf] & _ & E).
    apply bind_Ok in E as ([s2 names] & _ & E).
    apply bind_Ok in E as ([s3 sizes] & _ & E).
    apply bind_Ok in E as ([[s4 files'] events'] & E4 & E). injection E as <- <-.
    rewrite create_directory_trees_to_disk in E4.
    apply (for_int_from_invariant
             (fun st : extraction =>
                Forall (fun f => File.bytes f = []) st.1.2 /\
                Forall (fun e => is_create_directories e = false) st.2))
      in E4; [apply E4 | | by split; constructor].
    intros i st st' [Hf He]. by apply extract_file_to_disk_result.
  - unfold debundle in E.
    apply bind_Ok in E as ([s1 buf] & _ & E).
    apply bind_Ok in E as ([s2 names] & _ & E).
    apply bind_Ok in E as ([s3 sizes] & _ & E).
    apply bind_Ok in E as ([[s4 files'] events'] & E4 & E). injection E as <- <-.
    rewrite create_directory_trees_to_disk in E4.
    apply (for_int_from_invariant
             (fun st : extraction =>
                Forall (fun f => File.bytes f = []) st.1.2 /\
                Forall (fun e => is_create_directories e = false) st.2))
      in E4; [apply E4 | | by split; constructor].
    intros i st st' [Hf He]. by apply extract_file_to_disk_result.
  - rewrite <- E. unfold debundle.
    destruct (Input_Stream.read s _) as [[s1 buf]| |]; cbn [mbind result_bind]; try reflexivity.
    destruct (for_int _ (fun _ => read_name fuel) _) as [[s2 names]| |];
      cbn [mbind result_bind]; try reflexivity.
    destruct (for_int _ (fun _ => read_size) _) as [[s3 sizes]| |];
      cbn [mbind result_bind]; try reflexivity.
    by rewrite !create_directory_trees_to_disk.
Qed.

Lemma debundle_to_disk_requests_witness :
  Forall (fun e => is_create_directories e = false)
    [file_appended "x.txt" (string_bytes "hi")] /\
  Forall (fun f => File.bytes f = []) [File.of_size ("x.txt" ++ NUL) 2] /\
  debundle 7 {[ "b.bin"%string := x_txt_bundle ]}
    (Input_Stream.from_file {[ "b.bin"%string := x_txt_bundle ]} "b.bin" ios_in_binary)
    "elsewhere" false =
  Ok ([File.of_size ("x.txt" ++ NUL) 2], [file_appended "x.txt" (string_bytes "hi")]).
Proof.
  apply (debundle_to_disk_requests 7 {[ "b.bin"%string := x_txt_bundle ]}
           (Input_Stream.from_file {[ "b.bin"%string := x_txt_bundle ]} "b.bin" ios_in_binary)
           "out" "elsewhere").
  vm_compute. reflexivity.
Defined.

(** An invariant that follows the counter. *)
Lemma for_int_from_invariant_at {St : Type} (P : Z -> St -> Prop)
    (body : Z -> St -> result St) :
  (forall i s s', P i s -> body i s = Ok s' -> P (i + 1) s') ->
  forall count i s s',
    P i s -> for_int_from count i body s = Ok s' -> P (i + Z.of_nat count) s'.
Proof.
  intros Hbody. induction count as [|count IH]; intros i s s' Hs E.
  - cbn in E. injection E as <-. by rewrite Z.add_0_r.
  - cbn [for_int_from] in E. apply bind_Ok in E as (s1 & E1 & E).
    destruct (INT_MAX <=? i); [discriminate |].
    replace (i + Z.of_nat (S count)) with (i + 1 + Z.of_nat count) by lia.
    eapply IH; [| exact E]. eapply Hbody; eauto.
Qed.

Lemma Z_of_byte_nonneg (b : byte) : 0 <= Z_of_byte b.
Proof. unfold Z_of_byte. lia. Qed.

Lemma le_value_nonneg (l : list byte) : 0 <= le_value l.
Proof.
  induction l as [|b l IH]; [done |].
  cbn [le_value]. pose proof (Z_of_byte_nonneg b). lia.
Qed.

Lemma length_vector_resize_nil (n : Z) : length (vector_resize [] n) = Z.to_nat n.
Proof.
  unfold vector_resize. rewrite length_app, length_take, length_replicate. cbn [length]. lia.
Qed.

Lemma write_region (n : nat) (out out' : Output_Stream.t) (data : list byte) :
  region_of n out -> Output_Stream.write out data = Ok out' -> region_of n out'.
Proof.
  destruct out as [[ty off f fname m msize] total]. unfold region_of.
  cbn [Output_Stream.base stream_object_type memory]. intros [-> Hm] E.
  unfold Output_Stream.write in E.
  cbn [Output_Stream.base Output_Stream.total_bytes_written memory stream_object_type
       current_offset memory_size STREAM_OBJECT_TYPE.eqb andb] in E.
  destruct m as [mem|].
  - apply bind_Ok in E as (mem2 & E2 & E). injection E as <-.
    cbn [Output_Stream.base stream_object_type memory set_current_offset set_memory].
    split; [reflexivity |]. intros m' [= <-].
    unfold memcpy_to in E2.
    destruct (Z.leb_spec 0 off); [| discriminate].
    destruct (Z.leb_spec (off + len data) (len mem)); [| discriminate].
    cbn [andb] in E2. injection E2 as <-.
    rewrite <- (Hm mem eq_refl).
    rewrite !length_app, length_take, length_drop. unfold len in *. lia.
  - injection E as <-.
    cbn [Output_Stream.base stream_object_type memory set_file]. done.
Qed.

Lemma copy_byte_region (n : nat) (st st' : Input_Stream.t * Output_Stream.t) :
  region_of n st.2 -> copy_byte st = Ok st' -> region_of n st'.2.
Proof.
  intros Hr E. unfold copy_byte in E.
  apply bind_Ok in E as ([i buf] & _ & E).
  apply bind_Ok in E as (o & Ew & E). injection E as <-. cbn [snd].
  by eapply write_region.
Qed.

Lemma extract_file_to_memory_result disk names sizes (i : Z) (st st' : extraction) :
  Forall (fun z => 0 <= z) sizes ->
  extract_file disk true names sizes i st = Ok st' ->
  exists f,
    st'.1.2 = st.1.2 ++ [f] /\ st'.2 = st.2 /\
    names !! Z.to_nat i = Some (File.name f) /\
    sizes !! Z.to_nat i = Some (File.size f) /\
    materialized f = true.
Proof.
  destruct st as [[input files] events]. cbn [fst snd]. intros Hpos E.
  unfold extract_file in E.
  destruct (names !! Z.to_nat i) as [file_name|] eqn:En; [| discriminate].
  destruct (sizes !! Z.to_nat i) as [file_size|] eqn:Es; [| discriminate].
  apply bind_Ok in E as ([input' output'] & El & E). injection E as <-. cbn [fst snd].
  eexists. split; [reflexivity |]. split; [reflexivity |].
  cbn [File.name File.size File.bytes]. split; [reflexivity |]. split; [reflexivity |].
  assert (Hsz : 0 <= file_size) by (eapply (Forall_lookup_1 _ sizes); eauto).
  apply (for_int_from_invariant
           (fun st : Input_Stream.t * Output_Stream.t =>
              region_of (Z.to_nat file_size) st.2)) in El.
  - cbn [snd] in El. destruct El as [_ Hm]. unfold materialized.
    cbn [File.size File.bytes]. apply Z.eqb_eq. unfold len.
    destruct (memory (Output_Stream.base output')) as [m|]; unfold default; cbn [from_option id].
    + rewrite (Hm m eq_refl). lia.
    + rewrite length_vector_resize_nil. lia.
  - intros j s0 s0'. apply copy_byte_region.
  - cbn [snd]. split; [reflexivity |].
    unfold Output_Stream.from_memory, open_memory. cbn [Output_Stream.base memory].
    intros m Hm. unfold vector_data in Hm.
    destruct (vector_resize [] file_size) as [|b v] eqn:Ev; [discriminate |].
    injection Hm as <-. rewrite <- Ev. apply length_vector_resize_nil.
Qed.

Lemma read_size_nonneg (st st' : Input_Stream.t * list Z) :
  Forall (fun z => 0 <= z) st.2 -> read_size st = Ok st' -> Forall (fun z => 0 <= z) st'.2.
Proof.
  intros H E. unfold read_size in E.
  apply bind_Ok in E as ([s buf] & _ & E). injection E as <-. cbn [snd].
  apply Forall_app. split; [exact H |]. constructor; [apply le_value_nonneg | constructor].
Qed.

(** X12: every file unpacked to memory carries a buffer of exactly its
    declared size; the names and sizes returned are those read from the
    bundle, in order; and the only filesystem requests are the directory
    trees derived from those names: no file is opened for writing. *)
Theorem debundle_to_memory_result (fuel : nat) (disk : gmap string (list byte))
    (s : Input_Stream.t) (p_output_directory : string)
    (files : list File.t) (events : list fs_event) :
  debundle fuel disk s p_output_directory true = Ok (files, events) ->
  Forall (fun f => materialized f = true) files /\
  events = create_directory_trees p_output_directory true (map File.name files).
Proof.
  unfold debundle. intros E.
  apply bind_Ok in E as ([s1 buf] & _ & E).
  apply bind_Ok in E as ([s2 names] & _ & E).
  apply bind_Ok in E as ([s3 sizes] & E3 & E).
  apply bind_Ok in E as ([[s4 files'] events'] & E4 & E). injection E as <- <-.
  apply (for_int_from_invariant
           (fun st : Input_Stream.t * list Z => Forall (fun z => 0 <= z) st.2))
    in E3; [| intros i st st'; apply read_size_nonneg | by constructor].
  cbn [snd] in E3.
  set (dirs := create_directory_trees p_output_directory true names) in *.
  apply (for_int_from_invariant_at
           (fun i (st : extraction) =>
              Forall (fun f => materialized f = true) st.1.2 /\
              st.2 = dirs /\
              map File.name st.1.2 = take (Z.to_nat i) names /\ 0 <= i))
    in E4.
  - cbn [fst snd] in E4. destruct E4 as (Hm & -> & Hn & _). split; [exact Hm |].
    unfold dirs. rewrite Hn. unfold len. rewrite Z.add_0_l, Nat2Z.id.
    rewrite take_ge by lia. reflexivity.
  - intros i st st' (Hm & Hev & Hn & Hi) Ex.
    apply extract_file_to_memory_result in Ex as (f & Hf & He & Hname & _ & Hmat);
      [| exact E3].
    rewrite Hf, He. split; [apply Forall_app; split; [exact Hm | by constructor] |].
    split; [exact Hev |]. split; [| lia].
    rewrite map_app, Hn. cbn [map].
    replace (Z.to_nat (i + 1)) with (S (Z.to_nat i)) by lia.
    by rewrite (take_S_r _ _ _ Hname).
  - cbn [fst snd]. repeat split; [constructor | lia].
Qed.

Lemma debundle_to_memory_result_witness :
  Forall (fun f => materialized f = true)
    [ {| File.name := "a/b/c.txt" ++ NUL; File.size := 5;
         File.bytes := string_bytes "hell" ++ [CHAR_MAX] |};
      {| File.name := "empty" ++ NUL; File.size := 0; File.bytes := [] |} ] /\
  [create_directories "/a/b"] =
    create_directory_trees "" true
      (map File.name
         [ {| File.name := "a/b/c.txt" ++ NUL; File.size := 5;
              File.bytes := string_bytes "hell" ++ [CHAR_MAX] |};
           {| File.name := "empty" ++ NUL; File.size := 0; File.bytes := [] |} ]).
Proof.
  apply (debundle_to_memory_result 11 ∅
           (Input_Stream.from_memory
              (Some (layout ∅ true nested_files)) (len (layout ∅ true nested_files))) "").
  vm_compute. reflexivity.
Defined.

(** ** Reading a bundle back *)

Lemma take_1_drop_middle (pre rest : list byte) (b : byte) :
  take 1 (drop (Z.to_nat (len pre)) (pre ++ b :: rest)) = [b].
Proof.
  unfold len. rewrite Nat2Z.id. rewrite drop_app_length. reflexivity.
Qed.


Lemma string_app_cons (x : ascii) (a b : string) :
  (String x a ++ b)%string = String x (a ++ b).
Proof. reflexivity. Qed.




Ltac len_norm := repeat first [rewrite len_app | rewrite len_cons].








Lemma read_name_eq (fuel : nat) (s : Input_Stream.t) (acc : list string) :
  read_name fuel (s, acc) =
  ('(s', file_name) ← read_name_loop fuel s EmptyString CHAR_MAX; Ok (s', acc ++ [file_name])).
Proof. reflexivity. Qed.







Lemma to_nat_len {A : Type} (l : list A) : Z.to_nat (len l) = length l.
Proof. unfold len. lia. Qed.


















(** ** Round trips *)

Lemma layout_from_memory (disk : gmap string (list byte)) (p_files : list File.t) :
  layout disk true p_files = layout ∅ true p_files.
Proof. reflexivity. Qed.









(** ** Packing from disk *)

Lemma file_bytes_read_bad (count : nat) (f : fstream) :
  fstream_good f = false -> file_bytes_read count f = replicate count CHAR_MAX.
Proof.
  revert f. induction count as [|count IH]; intros f Hbad; [reflexivity |].
  cbn [file_bytes_read replicate]. unfold fstream_read at 1 2. rewrite Hbad.
  cbn [fst snd app]. f_equal. apply IH. unfold fstream_good. cbn.
  by rewrite andb_false_r.
Qed.

Lemma file_bytes_read_good (count : nat) :
  forall (C p : list byte) (k : nat),
    (k <= length C)%nat ->
    file_bytes_read count
      {| is_open := true; failbit := false; get_area := C; gpos := Z.of_nat k;
         put_area := p |} =
    take count (drop k C) ++ replicate (count - (length C - k)) CHAR_MAX.
Proof.
  induction count as [|count IH]; intros C p k Hk; [reflexivity |].
  cbn [file_bytes_read]. unfold fstream_read at 1 2. unfold fstream_good.
  cbn [is_open failbit get_area gpos put_area andb negb]. rewrite Nat2Z.id.
  change (len [CHAR_MAX]) with 1.
  destruct (drop k C) as [|b rest] eqn:Ed.
  - assert (k = length C).
    { apply (f_equal length) in Ed. rewrite length_drop in Ed. cbn in Ed. lia. }
    subst k. change (len (@nil byte)) with 0. cbn [Z.leb fst snd app length drop].
    rewrite file_bytes_read_bad by reflexivity.
    replace (S count - (length C - length C))%nat with (S count) by lia.
    reflexivity.
  - assert (Hlt : (k < length C)%nat).
    { apply (f_equal length) in Ed. rewrite length_drop in Ed. cbn in Ed. lia. }
    rewrite len_cons. pose proof (len_nonneg rest).
    destruct (Z.leb_spec 1 (1 + len rest)); [| lia].
    cbn [fst snd length take app].
    replace (Z.of_nat k + 1) with (Z.of_nat (S k)) by lia.
    rewrite IH by lia.
    assert (Hrest' : drop (S k) C = rest).
    { replace (S k) with (k + 1)%nat by lia. rewrite <- drop_drop, Ed. reflexivity. }
    rewrite Hrest'.
    replace (S count - (length C - k))%nat with (count - (length C - S k))%nat by lia.
    reflexivity.
Qed.

(** What the byte-by-byte copy reads from a file on disk: the first bytes
    of the file, then [CHAR_MAX] for every byte the file lacks. *)
Lemma payload_entry_from_disk (disk : gmap string (list byte)) (f : File.t) :
  payload_entry disk false f =
  take (Z.to_nat (File.size f)) (stored disk (File.name f)) ++
  replicate (Z.to_nat (File.size f) - length (stored disk (File.name f))) CHAR_MAX.
Proof.
  unfold payload_entry, stored, fstream_open.
  destruct (disk !! c_str (File.name f)) as [C|]; unfold default; cbn [from_option id].
  - rewrite (file_bytes_read_good _ C [] 0) by lia. cbn [drop].
    by rewrite Nat.sub_0_r.
  - rewrite file_bytes_read_bad by reflexivity. rewrite take_nil. cbn [length app].
    by rewrite Nat.sub_0_r.
Qed.

(** X16: packing a record from disk writes as many bytes as the record
    declares: the first bytes of the file it names, and the byte 0x7F for
    every byte by which the file falls short (all of them when the file
    does not exist).  The size is never compared with the file. *)
Theorem write_payload_from_disk (disk : gmap string (list byte)) (s : Output_Stream.t)
    (f : File.t) :
  appending s ->
  0 <= File.size f <= INT_MAX ->
  len (Output_Stream.contents s) + File.size f < 2 ^ 64 ->
  exists s',
    write_payload disk false s f = Ok s' /\
    Output_Stream.contents s' =
      Output_Stream.contents s ++
      take (Z.to_nat (File.size f)) (stored disk (File.name f)) ++
      replicate (Z.to_nat (File.size f) - length (stored disk (File.name f))) CHAR_MAX /\
    len (Output_Stream.contents s') = len (Output_Stream.contents s) + File.size f.
Proof.
  intros Hs Hsz Hfit.
  destruct (write_payload_appending disk false s f) as (s' & E & _ & C & _);
    [lia | exact Hs | rewrite len_payload_entry; unfold payload_length; lia |].
  exists s'. split; [exact E |]. rewrite C, len_app, len_payload_entry.
  rewrite payload_entry_from_disk. split; [reflexivity |].
  unfold payload_length. lia.
Qed.

Lemma write_payload_from_disk_witness :
  exists s',
    write_payload {[ "a.txt"%string := string_bytes "hi" ]} false
      (Output_Stream.from_vector [] 0) (File.of_size "a.txt" 4) = Ok s' /\
    Output_Stream.contents s' = string_bytes "hi" ++ [CHAR_MAX; CHAR_MAX].
Proof.
  destruct (write_payload_from_disk {[ "a.txt"%string := string_bytes "hi" ]}
              (Output_Stream.from_vector [] 0) (File.of_size "a.txt" 4))
    as (s' & E & C & _);
    [repeat split | vm_compute; split; congruence | vm_compute; reflexivity |].
  exists s'. split; [exact E | exact C].
Defined.

Lemma describe_files_on_disk (disk : gmap string (list byte)) (names : list string) :
  forallb (on_disk disk) names = true ->
  describe_files disk names = Some (map (described disk) names).
Proof.
  induction names as [|n names IH]; intros H; [reflexivity |].
  cbn [forallb] in H. apply andb_prop in H as [Hn H].
  cbn [describe_files map]. rewrite (IH H).
  unfold file_size, described, stored, on_disk in *.
  destruct (disk !! c_str n) as [C|]; [reflexivity | discriminate].
Qed.


Lemma fold_accumulate_ext {A : Type} (g h : A -> File.t) (xs : list A) :
  (forall x, File.name (g x) = File.name (h x) /\ File.size (g x) = File.size (h x)) ->
  forall m, fold_left accumulate (map g xs) m = fold_left accumulate (map h xs) m.
Proof.
  intros E. induction xs as [|x xs IH]; intros m; [reflexivity |].
  cbn [map fold_left]. rewrite IH. f_equal.
  unfold accumulate, File.get_name, File.get_size. destruct (E x) as [-> ->]. reflexivity.
Qed.

Lemma concat_map_ext {A : Type} (g h : A -> list byte) (xs : list A) :
  (forall x, g x = h x) -> concat (map g xs) = concat (map h xs).
Proof. intros E. f_equal. apply map_ext. exact E. Qed.

(** The layout packed from the paths is the layout packed from the loaded
    files. *)
Lemma layout_described (disk : gmap string (list byte)) (names : list string) :
  layout disk false (map (described disk) names) =
  layout ∅ true (map (loaded disk) names).
Proof.
  unfold layout, bundle_metadata, names_section, sizes_section, files_section.
  rewrite (fold_accumulate_ext (described disk) (loaded disk)) by (by intros x).
  rewrite !map_map.
  rewrite (concat_map_ext (fun x => name_entry (described disk x))
             (fun x => name_entry (loaded disk x))) by done.
  rewrite (concat_map_ext (fun x => size_entry (described disk x))
             (fun x => size_entry (loaded disk x))) by done.
  rewrite (concat_map_ext (fun x => payload_entry disk false (described disk x))
             (fun x => payload_entry ∅ true (loaded disk x))); [reflexivity |].
  intros n. rewrite payload_entry_from_disk. unfold described, loaded, payload_entry.
  cbn [File.name File.size File.bytes File.of_size File.of_bytes].
  rewrite to_nat_len, take_ge by lia. rewrite Nat.sub_diag. cbn [replicate].
  by rewrite app_nil_r.
Qed.

Lemma bundle_length_described (disk : gmap string (list byte)) (names : list string) :
  bundle_length false (map (described disk) names) =
  bundle_length true (map (loaded disk) names).
Proof. rewrite <- !(len_layout disk). by rewrite layout_described. Qed.

(** X17: packing from a list of paths that all exist gives, byte for
    byte, the bundle that packing the loaded files from memory gives, with
    the same reported size. *)
Theorem pack_from_paths_as_from_memory (disk : gmap string (list byte))
    (p_file_names : list string) :
  forallb (on_disk disk) p_file_names = true ->
  forallb (fun n => len (stored disk n) <=? INT_MAX) p_file_names = true ->
  bundle_length true (map (loaded disk) p_file_names) < 2 ^ 64 ->
  exists package1 package2,
    bundle_paths_to_memory disk p_file_names = Some (Ok package1) /\
    bundle_to_memory (map (loaded disk) p_file_names) = Ok package2 /\
    File.bytes package1 = File.bytes package2 /\
    File.size package1 = File.size package2.
Proof.
  intros Hex Hint Hfit.
  unfold bundle_paths_to_memory, bundle_to_memory.
  rewrite (describe_files_on_disk disk p_file_names Hex). cbn [mbind option_bind].
  destruct (bundle_layout disk (Output_Stream.from_vector [] (len (@nil byte)))
              (map (described disk) p_file_names) false) as (s1 & E1 & _ & C1);
    [repeat split | | |].
  { intros _. rewrite forallb_forall in Hint |- *. intros f Hf.
    apply in_map_iff in Hf as (n & <- & Hn). apply (Hint n Hn). }
  { rewrite bundle_length_described. change (len (Output_Stream.contents _)) with 0. lia. }
  destruct (bundle_layout ∅ (Output_Stream.from_vector [] (len (@nil byte)))
              (map (loaded disk) p_file_names) true) as (s2 & E2 & _ & C2);
    [repeat split | discriminate | change (len (Output_Stream.contents _)) with 0; lia |].
  rewrite E1, E2. cbn [mbind result_bind]. eexists _, _.
  split; [reflexivity |]. split; [reflexivity |].
  cbn [File.bytes File.size File.of_size]. rewrite C1, C2.
  rewrite layout_described, bundle_length_described. done.
Qed.

Lemma pack_from_paths_as_from_memory_witness :
  exists package1 package2,
    bundle_paths_to_memory {[ "a.txt"%string := string_bytes "hi" ]} ["a.txt"%string] =
      Some (Ok package1) /\
    bundle_to_memory (map (loaded {[ "a.txt"%string := string_bytes "hi" ]}) ["a.txt"%string]) =
      Ok package2 /\
    File.bytes package1 = File.bytes package2 /\
    File.size package1 = File.size package2.
Proof.
  apply (pack_from_paths_as_from_memory {[ "a.txt"%string := string_bytes "hi" ]}
           ["a.txt"%string]);
    [reflexivity | reflexivity | vm_compute; reflexivity].
Defined.



(** ** Packing twice *)

(** X19: packing a second list into the stream a first packing has left
    puts the second bundle right after the first, and the second package
    reports the bytes of both: the reported size is the stream's counter,
    not the length of the bundle. *)
Theorem bundle_twice (disk : gmap string (list byte)) (s : Output_Stream.t)
    (files1 files2 : list File.t) (p_from_memory : bool) :
  fresh_sink s ->
  (p_from_memory = false -> forallb int_sized (files1 ++ files2) = true) ->
  bundle_length p_from_memory files1 + bundle_length p_from_memory files2 < 2 ^ 64 ->
  exists package1 s1 package2 s2,
    bundle disk s files1 p_from_memory = Ok (package1, s1) /\
    bundle disk s1 files2 p_from_memory = Ok (package2, s2) /\
    Output_Stream.contents s2 =
      layout disk p_from_memory files1 ++ layout disk p_from_memory files2 /\
    File.size package1 = bundle_length p_from_memory files1 /\
    File.size package2 =
      bundle_length p_from_memory files1 + bundle_length p_from_memory files2.
Proof.
  intros Hfresh Hint Hfit.
  destruct (fresh_sink_appending s Hfresh) as [Hs Hempty].
  pose proof (len_nonneg (layout disk p_from_memory files1)) as H1.
  pose proof (len_nonneg (layout disk p_from_memory files2)) as H2.
  rewrite !len_layout in *.
  destruct (bundle_layout disk s files1 p_from_memory Hs) as (s1 & E1 & A1 & C1).
  { intros ->. specialize (Hint eq_refl). rewrite forallb_app in Hint.
    by apply andb_prop in Hint as [-> _]. }
  { rewrite Hempty. change (len (@nil byte)) with 0. lia. }
  rewrite Hempty in E1, C1. cbn [app] in C1. change (len (@nil byte)) with 0 in E1.
  destruct (bundle_layout disk s1 files2 p_from_memory A1) as (s2 & E2 & _ & C2).
  { intros ->. specialize (Hint eq_refl). rewrite forallb_app in Hint.
    by apply andb_prop in Hint as [_ ->]. }
  { rewrite C1, len_layout. lia. }
  rewrite C1, len_layout in E2.
  eexists _, s1, _, s2. split; [exact E1 |]. split; [exact E2 |].
  split; [by rewrite C2, C1 |]. split; reflexivity.
Qed.

Lemma bundle_twice_witness :
  exists package1 s1 package2 s2,
    bundle {[ "a.txt"%string := string_bytes "hi" ]} (Output_Stream.from_vector [] 0)
      [File.of_size "a.txt" 2] false = Ok (package1, s1) /\
    bundle {[ "a.txt"%string := string_bytes "hi" ]} s1
      [File.of_size "a.txt" 1] false = Ok (package2, s2) /\
    Output_Stream.contents s2 =
      layout {[ "a.txt"%string := string_bytes "hi" ]} false [File.of_size "a.txt" 2] ++
      layout {[ "a.txt"%string := string_bytes "hi" ]} false [File.of_size "a.txt" 1] /\
    File.size package1 = bundle_length false [File.of_size "a.txt" 2] /\
    File.size package2 =
      bundle_length false [File.of_size "a.txt" 2] +
      bundle_length false [File.of_size "a.txt" 1].
Proof.
  apply (bundle_twice {[ "a.txt"%string := string_bytes "hi" ]}
           (Output_Stream.from_vector [] 0)
           [File.of_size "a.txt" 2] [File.of_size "a.txt" 1] false);
    [apply fresh_vector | reflexivity | vm_compute; reflexivity].
Defined.

(** ** The directory of a name *)

Lemma string_length_app (a b : string) :
  String.length (a ++ b) = (String.length a + String.length b)%nat.
Proof.
  induction a as [|x a IH]; [reflexivity |].
  rewrite string_app_cons. cbn [String.length]. by rewrite IH.
Qed.

Lemma substring_prefix (a b : string) : String.substring 0 (String.length a) (a ++ b) = a.
Proof.
  induction a as [|x a IH].
  - cbn [String.length]. destruct b; reflexivity.
  - rewrite string_app_cons. cbn [String.length String.substring]. by rewrite IH.
Qed.

Lemma separator_free_get (s : string) (k : nat) (c : ascii) :
  separator_free s = true -> String.get k s = Some c -> is_separator c = false.
Proof.
  revert k. induction s as [|x s IH]; intros k Hs Hg; [discriminate |].
  cbn [separator_free] in Hs. apply andb_prop in Hs as [Hx Hs].
  destruct k as [|k]; cbn [String.get] in Hg.
  - injection Hg as <-. by apply negb_true_iff.
  - by apply (IH k).
Qed.

Lemma scan_separator_after (dir base : string) (sep : ascii) (k : nat) :
  is_separator sep = true ->
  separator_free base = true ->
  scan_separator (dir ++ String sep base) (String.length dir + k) = dir.
Proof.
  intros Hsep Hbase. induction k as [|k IH].
  - rewrite Nat.add_0_r. destruct (String.length dir) as [|j] eqn:El.
    + destruct dir; [reflexivity | discriminate].
    + cbn [scan_separator]. rewrite <- El.
      change (String.length dir) with (0 + String.length dir)%nat at 1.
      rewrite <- (append_correct2 dir (String sep base) 0). cbn [String.get].
      rewrite Hsep. apply substring_prefix.
  - rewrite Nat.add_succ_r. cbn [scan_separator].
    replace (S (String.length dir + k)) with (S k + String.length dir)%nat by lia.
    rewrite <- (append_correct2 dir (String sep base) (S k)). cbn [String.get].
    destruct (String.get k base) as [c|] eqn:Eg; [| exact IH].
    rewrite (separator_free_get base k c Hbase Eg). exact IH.
Qed.

Lemma scan_separator_none (c : ascii) (rest : string) (k : nat) :
  separator_free rest = true -> scan_separator (String c rest) k = EmptyString.
Proof.
  intros Hrest. induction k as [|k IH]; [reflexivity |].
  cbn [scan_separator String.get].
  destruct (String.get k rest) as [c'|] eqn:Eg; [| exact IH].
  rewrite (separator_free_get rest k c' Hrest Eg). exact IH.
Qed.

(** X20: the directory derived from a name is what stands before its last
    separator ([/] or [\]); a separator in first position does not count,
    and a name with no separator after its first character has no
    directory. *)
Theorem original_path_is_parent (dir base : string) (sep c : ascii) :
  is_separator sep = true ->
  separator_free base = true ->
  original_path (dir ++ String sep base) = dir /\
  original_path (String c base) = EmptyString.
Proof.
  intros Hsep Hbase. unfold original_path. split.
  - rewrite string_length_app. cbn [String.length].
    replace (String.length dir + S (String.length base) - 1)%nat
      with (String.length dir + String.length base)%nat by lia.
    by apply scan_separator_after.
  - by apply scan_separator_none.
Qed.

Lemma original_path_is_parent_witness :
  original_path ("a/b" ++ String "/" ("c.txt" ++ NUL)) = "a/b"%string /\
  original_path (String "x" (".txt" ++ NUL)) = EmptyString.
Proof.
  apply (original_path_is_parent "a/b" ("c.txt" ++ NUL) "/" "x"); reflexivity.
Defined.

(** ** Truncated bundles *)

Lemma memory_read (s : Input_Stream.t) (L dst : list byte) (last : byte) (k : Z) :
  memory_at s L last k ->
  0 <= k ->
  k + len dst <= len L ->
  exists s',
    Input_Stream.read s dst = Ok (s', take (length dst) (drop (Z.to_nat k) L)) /\
    memory_at s' L last (k + len dst).
Proof.
  intros (Hmem & Hsize & Hfit & Hoff) Hk Hin. pose proof (len_nonneg dst) as Hd.
  unfold Input_Stream.read. rewrite Hmem, Hsize, Hoff.
  rewrite wrap64_small by lia.
  destruct (Z.leb_spec (len L + 1) (k + len dst)); [lia |].
  unfold memcpy_from. rewrite len_app. change (len [last]) with 1.
  destruct (Z.leb_spec 0 k); [| lia].
  destruct (Z.leb_spec (k + len dst) (len L + 1)); [| lia].
  cbn [andb mbind result_bind]. eexists. split.
  - replace (Z.to_nat (len dst)) with (length dst) by (unfold len; lia).
    rewrite take_drop_app_l by (unfold len in *; lia). reflexivity.
  - unfold memory_at. cbn [memory set_current_offset memory_size current_offset]. done.
Qed.

Lemma memory_at_end_exhausted (s : Input_Stream.t) (L : list byte) (last : byte) :
  memory_at s L last (len L) -> exhausted s = true.
Proof.
  intros (Hmem & Hsize & Hfit & Hoff). unfold exhausted. rewrite Hmem, Hsize, Hoff.
  pose proof (len_nonneg L). rewrite wrap64_small by lia. apply Z.leb_refl.
Qed.

Lemma read_name_loop_no_terminator (q : list byte) :
  forall (fuel : nat) (s : Input_Stream.t) (pre : list byte) (last : byte)
         (acc : string) (c : byte),
    memory_at s (pre ++ q) last (len pre) ->
    forallb nonzero q = true ->
    c <> x00 ->
    read_name_loop fuel s acc c = OutOfFuel.
Proof.
  induction q as [|b q IH]; intros fuel s pre last acc c Hs Hq Hc.
  - rewrite app_nil_r in Hs. apply read_name_loop_exhausted; [| exact Hc].
    by eapply memory_at_end_exhausted.
  - cbn [forallb] in Hq. apply andb_prop in Hq as [Hb Hq].
    unfold nonzero in Hb. apply negb_true_iff in Hb.
    destruct fuel as [|fuel]; cbn [read_name_loop];
      (destruct (Byte.eqb c x00) eqn:Ec; [apply Byte.byte_dec_bl in Ec; done |]);
      [reflexivity |].
    destruct (memory_read s (pre ++ b :: q) [c] last (len pre) Hs) as (s1 & E1 & Hs1).
    { apply len_nonneg. }
    { change (len [c]) with 1. len_norm. pose proof (len_nonneg q). lia. }
    cbn [length] in E1. rewrite take_1_drop_middle in E1.
    rewrite E1. cbn [mbind result_bind hd].
    apply (IH fuel s1 (pre ++ [b]) last).
    + rewrite <- app_assoc. rewrite len_app. exact Hs1.
    + exact Hq.
    + intros ->. discriminate.
Qed.

(** X21: a memory region that holds a header announcing at least one file
    and, after the header, no zero byte except perhaps as its very last
    byte, makes the unpacker read names forever: no amount of fuel gives
    a result. *)
Theorem debundle_without_terminator_never_returns (fuel : nat)
    (disk : gmap string (list byte)) (m : Header_Metadata) (body : list byte)
    (last : byte) (p_output_directory : string) (p_to_memory : bool) :
  0 <= names_section_size m < 2 ^ 64 ->
  8 <= sizes_section_size m < 2 ^ 64 ->
  0 <= files_section_size m < 2 ^ 64 ->
  forallb nonzero body = true ->
  len (Header_Metadata_bytes m ++ body ++ [last]) < 2 ^ 64 ->
  debundle fuel disk
    (Input_Stream.from_memory (Some (Header_Metadata_bytes m ++ body ++ [last]))
       (len (Header_Metadata_bytes m ++ body ++ [last])))
    p_output_directory p_to_memory = OutOfFuel.
Proof.
  intros Hn Hs Hf Hbody Hfit.
  set (hdr := Header_Metadata_bytes m) in *.
  assert (Hhdr : len hdr = 24) by apply len_Header_Metadata_bytes.
  pose proof (len_nonneg body) as Hb.
  rewrite !len_app in Hfit. change (len [last]) with 1 in Hfit.
  set (s := Input_Stream.from_memory _ _).
  assert (Hs0 : memory_at s (hdr ++ body) last 0).
  { unfold memory_at, s, Input_Stream.from_memory, open_memory.
    cbn [memory memory_size current_offset Base_Stream_default].
    rewrite <- app_assoc, !len_app. change (len [last]) with 1.
    repeat split; lia. }
  destruct (memory_read s (hdr ++ body) (Header_Metadata_bytes Header_Metadata_default)
              last 0 Hs0) as (s1 & E1 & Hs1); [lia | |].
  { rewrite len_app, len_Header_Metadata_bytes. unfold sizeof_Header_Metadata. lia. }
  assert (Hbuf : take (length (Header_Metadata_bytes Header_Metadata_default))
                   (drop (Z.to_nat 0) (hdr ++ body)) = hdr).
  { replace (length (Header_Metadata_bytes Header_Metadata_default)) with (length hdr).
    - change (Z.to_nat 0) with 0%nat. cbn [drop]. apply take_app_length.
    - pose proof (len_Header_Metadata_bytes Header_Metadata_default) as L2.
      unfold len, sizeof_Header_Metadata in *. lia. }
  rewrite Hbuf in E1. rewrite len_Header_Metadata_bytes in Hs1.
  unfold debundle. rewrite E1. cbn [mbind result_bind]. cbv zeta.
  replace (Header_Metadata_of_bytes hdr) with m.
  2:{ unfold hdr. rewrite <- (app_nil_r (Header_Metadata_bytes m)).
      symmetry. apply Header_Metadata_of_bytes_app; lia. }
  assert (Hcount : exists n, Z.to_nat (sizes_section_size m / sizeof_uint64) = S n).
  { unfold sizeof_uint64.
    assert (1 <= sizes_section_size m / 8) by (apply Z.div_le_lower_bound; lia).
    exists (Z.to_nat (sizes_section_size m / 8) - 1)%nat. lia. }
  destruct Hcount as [n Hcount].
  unfold for_int. rewrite Hcount. cbn [for_int_from].
  rewrite read_name_eq.
  assert (Hseek : memory_at (Input_Stream.seekg s1 sizeof_Header_Metadata) (hdr ++ body) last
                    (len hdr)).
  { destruct Hs1 as (M1 & Z1 & F1 & O1). unfold Input_Stream.seekg. rewrite M1, Z1.
    unfold sizeof_Header_Metadata in *. rewrite len_app.
    destruct (Z.leb_spec 24 (len hdr + len body + 1)); [| lia].
    unfold memory_at. cbn [memory set_current_offset memory_size current_offset].
    rewrite len_app in *. repeat split; try done; lia. }
  rewrite (read_name_loop_no_terminator body fuel _ hdr last EmptyString CHAR_MAX Hseek Hbody)
    by discriminate.
  reflexivity.
Qed.

Lemma debundle_without_terminator_never_returns_witness :
  debundle 1000 ∅
    (Input_Stream.from_memory
       (Some (Header_Metadata_bytes (mk_Header_Metadata 6 8 2) ++ [x41; x42] ++ [x00]))
       (len (Header_Metadata_bytes (mk_Header_Metadata 6 8 2) ++ [x41; x42] ++ [x00])))
    "" true = OutOfFuel.
Proof.
  apply (debundle_without_terminator_never_returns 1000 ∅ (mk_Header_Metadata 6 8 2)
           [x41; x42] x00 "" true);
    [vm_compute; split; congruence | vm_compute; split; congruence
    | vm_compute; split; congruence | reflexivity | vm_compute; reflexivity].
Defined.

(** ** Handing the returned package to the unpacker *)




(** ** The last byte of a bundle in memory *)










